(** * Forest-fire detection service: a shallow embedding of the response
      parsing, the local heuristics and the per-request orchestration.

    The development follows the Python sources
      - [forest_fire_api/dashscope_client.py]  (module [DashScope]),
      - [forest_fire_api/image_processing.py]  (module [ImageProcessing]),
      - [forest_fire_api/routes.py]            (module [Routes]),
      - [forest_fire_api/config.py]            (module [Config], the
        allow-list of media types).

    Conventions of the embedding.
      - A Python [str] is a [string]; each [ascii] stands for the code point
        of the same number (0..255), so the model covers the Latin-1 range
        of Python's strings.
      - A Python [float] is a rational [Q]: the exact value of the decimal
        literal or of the arithmetic expression.  Rounding to binary64 is
        not represented.
      - A [dict] with string keys is a [gmap string _]; [None]-able values
        are [option]s.
      - A call that may raise returns an [outcome]; code that talks to the
        outside world is written in the monad [M], which threads the list of
        events performed so far.
      - Logging and wall-clock measurements are left out. *)

From stdpp Require Import gmap strings list sorting.
From Stdlib Require Import QArith Qround Qabs Lqa Ascii String DecimalString.

Set Warnings "-register-all".

Local Close Scope Q_scope.
Local Open Scope list_scope.
Local Open Scope string_scope.
Local Open Scope nat_scope.

(** ** Python strings *)

Module PyStr.

Definition code (c : ascii) : nat := nat_of_ascii c.

(** [str.isspace] on the code points below 256: the six ASCII blanks, the
    four information separators, NEL and the no-break space.  The same set
    is what [\s] matches in a [str] pattern and what [str.strip] removes. *)
Definition is_space (c : ascii) : bool :=
  let n := code c in
  (((9 <=? n) && (n <=? 13)) || ((28 <=? n) && (n <=? 32))
   || (n =? 133) || (n =? 160))%nat.

(** [\d] on the code points below 256: only the ASCII digits are of
    category Nd there. *)
Definition is_digit (c : ascii) : bool :=
  let n := code c in ((48 <=? n) && (n <=? 57))%nat.

Definition digit_value (c : ascii) : Z := Z.of_nat (code c - 48).

(** [str.lower] on one code point: A-Z and the Latin-1 capitals
    (U+00C0..U+00DE without the multiplication sign) move up by 32. *)
Definition lower_char (c : ascii) : ascii :=
  let n := code c in
  if (((65 <=? n) && (n <=? 90))
      || ((192 <=? n) && (n <=? 222) && negb (n =? 215)))%nat
  then ascii_of_nat (n + 32) else c.

Fixpoint lower (s : string) : string :=
  match s with
  | EmptyString => EmptyString
  | String c t => String (lower_char c) (lower t)
  end.

(** [needle in hay]. *)
Fixpoint contains (needle hay : string) : bool :=
  String.prefix needle hay
  || match hay with
     | EmptyString => false
     | String _ t => contains needle t
     end.

Fixpoint lstrip (s : string) : string :=
  match s with
  | EmptyString => EmptyString
  | String c t => if is_space c then lstrip t else s
  end.

Fixpoint rstrip (s : string) : string :=
  match s with
  | EmptyString => EmptyString
  | String c t =>
      match rstrip t with
      | EmptyString => if is_space c then EmptyString else String c EmptyString
      | t' => String c t'
      end
  end.

(** [str.strip()] with no argument. *)
Definition strip (s : string) : string := rstrip (lstrip s).

(** [s.endswith(suffix)] for a one-character suffix. *)
Fixpoint ends_with_char (c : ascii) (s : string) : bool :=
  match s with
  | EmptyString => false
  | String d EmptyString => Ascii.eqb c d
  | String _ t => ends_with_char c t
  end.

(** Truth value of a string: [not s] holds exactly for the empty one. *)
Definition truthy (s : string) : bool :=
  match s with EmptyString => false | _ => true end.

(** [sep.join(parts)]. *)
Fixpoint join (sep : string) (parts : list string) : string :=
  match parts with
  | [] => ""
  | [p] => p
  | p :: rest => p ++ sep ++ join sep rest
  end.

End PyStr.

(** ** Python floats as rationals *)

Module PyFloat.

(** [a >= b]. *)
Definition ge (a b : Q) : bool := Qle_bool b a.
(** [a > b]. *)
Definition gt (a b : Q) : bool := negb (Qle_bool a b).
(** [a < b]. *)
Definition lt (a b : Q) : bool := negb (Qle_bool b a).

(** [min(a, b)] and [max(a, b)] as the builtins compute them: the first
    argument is kept unless the second is strictly smaller (larger). *)
Definition min (a b : Q) : Q := if lt b a then b else a.
Definition max (a b : Q) : Q := if gt b a then b else a.

(** Truth value of a float: zero is false. *)
Definition truthy (a : Q) : bool := negb (Qeq_bool a 0).

Definition half : Q := 1 # 2.

End PyFloat.


(** ** Python values, exceptions and effects *)

(** The values [json.loads] produces, which are also those the service puts
    into its own dictionaries. *)
Inductive pyval : Type :=
| PNone
| PBool (b : bool)
| PInt (z : Z)
| PFloat (q : Q)
| PStr (s : string)
| PList (l : list pyval)
| PDict (d : gmap string pyval).

(** The exceptions of [forest_fire_api/exceptions.py], and the builtin ones
    the modelled code can meet. *)
Inductive exn : Type :=
| ConfigurationError (message : string)
| ExternalServiceError (message : string) (details : gmap string string)
| ValidationError (message : string)
| ImageProcessingError (message : string)
| RequestException (text : string)
| JSONDecodeError
| AttributeError
| TypeError
| KeyError
| IndexError
| UnidentifiedImageError
| OSError
| OtherException (text : string).

(** [isinstance(e, ForestFireAPIError)]. *)
Definition is_api_error (e : exn) : bool :=
  match e with
  | ConfigurationError _ | ExternalServiceError _ _
  | ValidationError _ | ImageProcessingError _ => true
  | _ => false
  end.

Inductive outcome (A : Type) : Type :=
| Return (a : A)
| Raise (e : exn).
Arguments Return {A} a.
Arguments Raise {A} e.

(** What the service does to the outside world, in the order it does it.
    [NetPost] is the transport being used; [ClientCall] is the route handing
    an upload to the client; the number in the other events is the position
    of the upload in the request, counted from 1 as the route counts. *)
Inductive event : Type :=
| NetPost (endpoint : string) (body : pyval)
| StreamSeek (index : nat)
| StreamRead (index : nat)
| ImageDecode (index : nat)
| ClientCall (index : nat)
| Annotate (index : nat)
| SaveAnnotated (index : nat).

(** Computations that may raise and that extend the trace of events. *)
Definition M (A : Type) : Type := list event -> list event * outcome A.

Definition ret {A} (a : A) : M A := fun tr => (tr, Return a).
Definition raise {A} (e : exn) : M A := fun tr => (tr, Raise e).
Definition bind {A B} (m : M A) (k : A -> M B) : M B :=
  fun tr =>
    match m tr with
    | (tr', Return a) => k a tr'
    | (tr', Raise e) => (tr', Raise e)
    end.
Definition emit (e : event) : M unit := fun tr => ((tr ++ [e])%list, Return tt).
Definition lift {A} (o : outcome A) : M A := fun tr => (tr, o).
(** [try: m except <handled>: h]. *)
Definition try_except {A} (m : M A) (handled : exn -> bool) (h : exn -> M A)
  : M A :=
  fun tr =>
    match m tr with
    | (tr', Raise e) => if handled e then h e tr' else (tr', Raise e)
    | r => r
    end.

Declare Scope py_scope.
Delimit Scope py_scope with py.
Notation "'let!' x ':=' m 'in' k" := (bind m (fun x => k))
  (at level 10, x pattern, m at level 100, k at level 200) : py_scope.
Notation "'run!' m 'in' k" := (bind m (fun _ => k))
  (at level 10, m at level 100, k at level 200) : py_scope.

Module PyVal.

(** [bool(v)]. *)
Definition truthy (v : pyval) : bool :=
  match v with
  | PNone => false
  | PBool b => b
  | PInt z => negb (z =? 0)%Z
  | PFloat q => PyFloat.truthy q
  | PStr s => PyStr.truthy s
  | PList l => match l with [] => false | _ => true end
  | PDict d => negb (bool_decide (d = ∅))
  end.

(** [v.get(key)]: [AttributeError] unless [v] is a dict. *)
Definition get (v : pyval) (key : string) : outcome pyval :=
  match v with
  | PDict d => Return (default PNone (d !! key))
  | _ => Raise AttributeError
  end.

(** [v.get(key, dflt)]. *)
Definition get_default (v : pyval) (key : string) (dflt : pyval)
  : outcome pyval :=
  match v with
  | PDict d => Return (default dflt (d !! key))
  | _ => Raise AttributeError
  end.

(** [v[0]] on a truthy value.  The keys of a decoded JSON object are strings,
    so an object has no key [0]. *)
Definition item0 (v : pyval) : outcome pyval :=
  match v with
  | PList (x :: _) => Return x
  | PList [] => Raise IndexError
  | PStr (String c _) => Return (PStr (String c EmptyString))
  | PStr EmptyString => Raise IndexError
  | PDict _ => Raise KeyError
  | _ => Raise TypeError
  end.

Definition is_dict (v : pyval) : bool :=
  match v with PDict _ => true | _ => false end.

(** [v == "text"] for a string literal. *)
Definition eq_str (v : pyval) (s : string) : bool :=
  match v with PStr t => String.eqb t s | _ => false end.

(** [str.strip(v)]: the unbound method refuses a non-string. *)
Definition str_strip (v : pyval) : outcome string :=
  match v with
  | PStr s => Return (PyStr.strip s)
  | _ => Raise TypeError
  end.

End PyVal.

(** ** The fragment of Python's [re] the service uses

    A backtracking matcher: alternatives are tried left to right, [?] and [*]
    are greedy and give back what they took when the rest of the pattern
    fails, a group records the text it matched last. *)

Module PyRe.

Inductive regex : Type :=
| Lit (c : ascii)
| Class (p : ascii -> bool)
| Seq (r1 r2 : regex)
| Alt (r1 r2 : regex)
| Opt (r : regex)
| Star (r : regex)
| Group (n : nat) (r : regex).

(** [r+]. *)
Definition Plus (r : regex) : regex := Seq r (Star r).

(** A literal word. *)
Fixpoint Word (w : string) : regex :=
  match w with
  | EmptyString => Opt (Class (fun _ => false))
  | String c EmptyString => Lit c
  | String c t => Seq (Lit c) (Word t)
  end.

Definition captures : Type := gmap nat string.

(** The part of [s] in front of its suffix [rest]. *)
Definition consumed (s rest : string) : string :=
  String.substring 0 (String.length s - String.length rest) s.

(** [lit_matches ic c d]: the pattern character [c] accepts the subject
    character [d]; [ic] is the IGNORECASE flag. *)
Definition lit_matches (ic : bool) (c d : ascii) : bool :=
  if ic then Ascii.eqb (PyStr.lower_char c) (PyStr.lower_char d)
  else Ascii.eqb c d.

Fixpoint run (ic : bool) (r : regex) (s : string) (caps : captures)
    (k : string -> captures -> option (string * captures)) {struct r}
  : option (string * captures) :=
  match r with
  | Lit c =>
      match s with
      | String d t => if lit_matches ic c d then k t caps else None
      | EmptyString => None
      end
  | Class p =>
      match s with
      | String d t => if p d then k t caps else None
      | EmptyString => None
      end
  | Seq r1 r2 => run ic r1 s caps (fun s1 caps1 => run ic r2 s1 caps1 k)
  | Alt r1 r2 =>
      match run ic r1 s caps k with
      | Some m => Some m
      | None => run ic r2 s caps k
      end
  | Opt r1 =>
      match run ic r1 s caps k with
      | Some m => Some m
      | None => k s caps
      end
  | Star r1 =>
      (fix loop (fuel : nat) (s : string) (caps : captures) {struct fuel}
         : option (string * captures) :=
         match fuel with
         | O => k s caps
         | S fuel' =>
             match
               run ic r1 s caps
                 (fun s1 caps1 =>
                    if (String.length s1 <? String.length s)%nat
                    then loop fuel' s1 caps1 else None)
             with
             | Some m => Some m
             | None => k s caps
             end
         end) (String.length s) s caps
  | Group n r1 =>
      run ic r1 s caps (fun s1 caps1 => k s1 (<[n := consumed s s1]> caps1))
  end.

(** A match object: [group(0)] and the numbered groups. *)
Record rmatch : Type := { group0 : string; groups : captures }.

(** The pattern matched at the very start of [s]. *)
Definition match_here (ic : bool) (r : regex) (s : string) : option rmatch :=
  match run ic r s ∅ (fun rest caps => Some (rest, caps)) with
  | Some (rest, caps) => Some {| group0 := consumed s rest; groups := caps |}
  | None => None
  end.

(** [pattern.search(s)]: the match at the leftmost position that has one. *)
Fixpoint search (ic : bool) (r : regex) (s : string) : option rmatch :=
  match match_here ic r s with
  | Some m => Some m
  | None =>
      match s with
      | EmptyString => None
      | String _ t => search ic r t
      end
  end.

(** [m.group(n)] of a group that took part in the match. *)
Definition group (m : rmatch) (n : nat) : string :=
  default "" (groups m !! n).

End PyRe.

(** ** Number formatting *)

Module PyFormat.

(** [str(z)] for an integer. *)
Definition str_of_Z (z : Z) : string := NilZero.string_of_int (Z.to_int z).

(** Rounding to the nearest integer, ties to the even one. *)
Definition round_half_even (x : Q) : Z :=
  let f := Qfloor x in
  match Qcompare (x - inject_Z f)%Q (1 # 2)%Q with
  | Lt => f
  | Gt => (f + 1)%Z
  | Eq => if Z.even f then f else (f + 1)%Z
  end.

(** [tenths x] is the number of tenths printed for the magnitude of [x]. *)
Definition tenths (x : Q) : Z := round_half_even (Qabs x * 10)%Q.

(** ["{0:.1f}".format(x)]: sign, integer part, point, one digit. *)
Definition format_1f (x : Q) : string :=
  (if PyFloat.lt x 0 then "-" else "")
  ++ str_of_Z (tenths x / 10)%Z ++ "." ++ str_of_Z (tenths x mod 10)%Z.

End PyFormat.

(** ** [forest_fire_api/dashscope_client.py] *)

Module DashScope.

(** The [context] dictionary.  Its only producer, the route, stores a string
    under ["filename"] and a float under ["local_probability"]; an absent key
    is [None] here. *)
Record Context : Type := {
  ctx_filename : option string;
  ctx_local_probability : option Q
}.

(** Truth value of the optional dictionary: [None] and [{}] are false. *)
Definition context_truthy (context : option Context) : bool :=
  match context with
  | None => false
  | Some c =>
      match ctx_filename c, ctx_local_probability c with
      | None, None => false
      | _, _ => true
      end
  end.

(** [float(context.get("local_probability", 0.0))]. *)
Definition context_local_probability (c : Context) : Q :=
  default 0%Q (ctx_local_probability c).

Record DashScopeResult : Type := {
  summary : string;
  fire_detected : bool;
  confidence : option Q;
  raw_response : pyval
}.

(** The fields of [Settings] the client reads. *)
Record Settings : Type := {
  dashscope_api_key : option string;
  dashscope_endpoint : string;
  dashscope_model : string;
  dashscope_timeout : Z * Z;
  dashscope_force_mock : bool;
  analysis_prompt : string
}.

Record DashScopeClient : Type := {
  _api_key : option string;
  _endpoint : string;
  _model : string;
  _timeout : Z * Z;
  _force_mock : bool;
  _analysis_prompt : string
}.

(** [DashScopeClient.__init__]. *)
Definition new_client (settings : Settings) : outcome DashScopeClient :=
  if negb (PyStr.truthy (dashscope_endpoint settings))
  then Raise (ConfigurationError "DashScope endpoint is not configured.")
  else Return {| _api_key := dashscope_api_key settings;
                 _endpoint := dashscope_endpoint settings;
                 _model := dashscope_model settings;
                 _timeout := dashscope_timeout settings;
                 _force_mock := dashscope_force_mock settings;
                 _analysis_prompt := analysis_prompt settings |}.

(** [not self._api_key]: no key, or an empty one. *)
Definition no_api_key (c : DashScopeClient) : bool :=
  match _api_key c with
  | None => true
  | Some k => negb (PyStr.truthy k)
  end.

Definition mock_summary (local_probability : Q) : string :=
  "[Mock] Local heuristic indicates a "
  ++ PyFormat.format_1f (local_probability * 100)%Q
  ++ "% probability of visible fire or smoke. "
  ++ "No external analysis was performed.".

(** [_mock_response]. *)
Definition _mock_response (context : option Context) : DashScopeResult :=
  let local_probability :=
    match context with
    | Some c => if context_truthy context
                then context_local_probability c else 0%Q
    | None => 0%Q
    end in
  let fire_detected := PyFloat.ge local_probability PyFloat.half in
  {| summary := mock_summary local_probability;
     fire_detected := fire_detected;
     confidence := if fire_detected then Some local_probability else None;
     raw_response :=
       PDict {[ "mock" := PBool true;
                "local_probability" := PFloat local_probability;
                "note" := PStr "DashScope mock mode is enabled (no API key configured)." ]} |}.

Definition text_block (text : string) : pyval :=
  PDict {[ "type" := PStr "text"; "text" := PStr text ]}.

(** [_build_messages]. *)
Definition _build_messages (c : DashScopeClient) (data_url : string)
    (context : option Context) : pyval :=
  let context_lines : list string :=
    match context with
    | Some ctx =>
        if context_truthy context then
          let filename_line :=
            match ctx_filename ctx with
            | Some filename =>
                if PyStr.truthy filename then ["Filename: " ++ filename] else []
            | None => []
            end in
          let probability_line :=
            match ctx_local_probability ctx with
            | Some p =>
                ["Local heuristic fire probability: "
                 ++ PyFormat.format_1f (p * 100)%Q ++ "%"]
            | None => []
            end in
          List.app filename_line probability_line
        else []
    | None => []
    end in
  let user_prompt :=
    match context_lines with
    | [] =>
        "Please analyse the attached forest scene for early signs of smoke, flame, or smouldering. "
        ++ "Summarise the risk level and key observations."
    | _ => PyStr.join (String (ascii_of_nat 10) "") context_lines
    end in
  PList [
    PDict {[ "role" := PStr "system";
             "content" := PList [text_block (_analysis_prompt c)] ]};
    PDict {[ "role" := PStr "user";
             "content" :=
               PList [ text_block user_prompt;
                       PDict {[ "type" := PStr "image_url";
                                "image_url" := PDict {[ "url" := PStr data_url ]} ]} ] ]}
  ].

(** *** Summary extraction *)

Definition obind {A B} (o : outcome A) (k : A -> outcome B) : outcome B :=
  match o with
  | Return a => k a
  | Raise e => Raise e
  end.

Fixpoint omap_all {A B} (f : A -> outcome B) (l : list A) : outcome (list B) :=
  match l with
  | [] => Return []
  | x :: t => obind (f x) (fun y => obind (omap_all f t) (fun ys => Return (y :: ys)))
  end.

(** [except Exception]: every exception of the model derives from it. *)
Definition is_exception (e : exn) : bool := true.

Definition newline : string := String (ascii_of_nat 10) EmptyString.

(** [[block.get("text", "") for block in content
      if isinstance(block, dict) and block.get("type") == "text"]]. *)
Definition text_blocks (content : list pyval) : list pyval :=
  flat_map
    (fun block =>
       match block with
       | PDict d =>
           if PyVal.eq_str (default PNone (d !! "type")) "text"
           then [default (PStr "") (d !! "text")] else []
       | _ => []
       end)
    content.

(** ["\n".join(filter(None, parts))]. *)
Definition join_nonempty (parts : list string) : string :=
  PyStr.join newline (List.filter PyStr.truthy parts).

Section Summary.

(** [repr] of a value that is not a string: a number, a boolean, [None], a
    list or a dict.  The builtin is total; its text plays no part below. *)
Variable py_repr : pyval -> string.

(** [str(v)]. *)
Definition py_str (v : pyval) : string :=
  match v with
  | PStr s => s
  | _ => py_repr v
  end.

(** The stringified entries of [content] that are not mappings. *)
Definition fallback_parts (content : list pyval) : list string :=
  List.map py_str (List.filter (fun block => negb (PyVal.is_dict block)) content).

(** The [try] block of [_extract_summary]; [Return None] stands for leaving
    the block without a [return]. *)
Definition extract_summary_try (payload : pyval) : outcome (option string) :=
  obind (PyVal.get payload "choices") (fun choices =>
  if negb (PyVal.truthy choices) then Return (Some "") else
  obind (PyVal.item0 choices) (fun first_choice =>
  obind (PyVal.get_default first_choice "message" (PDict ∅)) (fun message =>
  obind (PyVal.get message "content") (fun content =>
  match content with
  | PStr s => Return (Some (PyStr.strip s))
  | PList blocks =>
      obind (omap_all PyVal.str_strip (text_blocks blocks)) (fun texts =>
      let joined := join_nonempty texts in
      if PyStr.truthy joined then Return (Some joined)
      else Return (Some (PyStr.strip (join_nonempty (fallback_parts blocks)))))
  | _ =>
      if PyVal.truthy content then Return (Some (py_str content))
      else Return None
  end)))).

(** [_extract_summary]: the [try] block, the handler that swallows what it
    raised, and the final [return ""]. *)
Definition _extract_summary (payload : pyval) : outcome string :=
  match extract_summary_try payload with
  | Return (Some s) => Return s
  | Return None => Return ""
  | Raise e => if is_exception e then Return "" else Raise e
  end.

End Summary.

(** *** Confidence extraction *)

Definition colon_or_equals (c : ascii) : bool :=
  Ascii.eqb c ":" || Ascii.eqb c "=".

Definition number_regex : PyRe.regex :=
  PyRe.Seq (PyRe.Plus (PyRe.Class PyStr.is_digit))
           (PyRe.Opt (PyRe.Seq (PyRe.Lit ".") (PyRe.Plus (PyRe.Class PyStr.is_digit)))).

(** [(confidence|probability|likelihood)\s*[:=]\s*(\d+(?:\.\d+)?)%?] *)
Definition confidence_regex : PyRe.regex :=
  PyRe.Seq
    (PyRe.Group 1
       (PyRe.Alt (PyRe.Word "confidence")
          (PyRe.Alt (PyRe.Word "probability") (PyRe.Word "likelihood"))))
    (PyRe.Seq (PyRe.Star (PyRe.Class PyStr.is_space))
       (PyRe.Seq (PyRe.Class colon_or_equals)
          (PyRe.Seq (PyRe.Star (PyRe.Class PyStr.is_space))
             (PyRe.Seq (PyRe.Group 2 number_regex)
                (PyRe.Opt (PyRe.Lit "%")))))).

Fixpoint digits_to_Z (acc : Z) (s : string) : Z :=
  match s with
  | EmptyString => acc
  | String c t => digits_to_Z (acc * 10 + PyStr.digit_value c)%Z t
  end.

(** The text in front of the first point, and the text behind it if there is
    a point. *)
Fixpoint split_point (s : string) : string * option string :=
  match s with
  | EmptyString => (EmptyString, None)
  | String c t =>
      if Ascii.eqb c "." then (EmptyString, Some t)
      else let (i, f) := split_point t in (String c i, f)
  end.

(** [float(text)] for a text of the shape [digits] or [digits.digits], the
    only shapes group 2 of the pattern can hold. *)
Definition float_of_decimal (text : string) : Q :=
  match split_point text with
  | (i, None) => inject_Z (digits_to_Z 0 i)
  | (i, Some f) =>
      Qmake (digits_to_Z 0 (i ++ f))
            (Z.to_pos (10 ^ Z.of_nat (String.length f)))
  end.

(** [_extract_confidence]. *)
Definition _extract_confidence (summary : string) : option Q :=
  if negb (PyStr.truthy summary) then None else
  match PyRe.search true confidence_regex summary with
  | None => None
  | Some m =>
      let value := float_of_decimal (PyRe.group m 2) in
      if PyStr.ends_with_char "%" (PyStr.strip (PyRe.group0 m))
         && PyFloat.gt value 1
      then Some (PyFloat.max 0 (PyFloat.min 100 value) / 100)%Q
      else Some (PyFloat.max 0 (PyFloat.min 1 value))
  end.

(** *** Fire-detected inference *)

Definition negative_tokens : list string :=
  [ "no fire"; "no visible fire"; "absence of fire"; "unlikely";
    "not detected"; "no smoke"; "no flames"; "no sign of fire";
    "no obvious fire" ].

Definition affirmative_tokens : list string :=
  [ "fire"; "flame"; "smoke"; "burn"; "blaze"; "ignition" ].

(** [confidence or 0.0]. *)
Definition confidence_or_zero (confidence : option Q) : Q :=
  match confidence with
  | Some c => if PyFloat.truthy c then c else 0%Q
  | None => 0%Q
  end.

(** [context and float(context.get("local_probability", 0.0)) >= 0.5], taken
    as a truth value. *)
Definition context_says_fire (context : option Context) : bool :=
  match context with
  | Some c =>
      context_truthy context
      && PyFloat.ge (context_local_probability c) PyFloat.half
  | None => false
  end.

(** [_infer_fire_detection]. *)
Definition _infer_fire_detection (summary : string)
    (context : option Context) (confidence : option Q) : bool :=
  if negb (PyStr.truthy summary) then
    PyFloat.ge (confidence_or_zero confidence) PyFloat.half
    || context_says_fire context
  else
    let text := PyStr.lower summary in
    if existsb (fun token => PyStr.contains token text) negative_tokens
    then false
    else if existsb (fun token => PyStr.contains token text) affirmative_tokens
    then
      if existsb (fun token => PyStr.contains ("no " ++ token) text)
           affirmative_tokens
      then false else true
    else
      match confidence with
      | Some c => PyFloat.ge c PyFloat.half
      | None => if context_says_fire context then true else false
      end.

(** *** The call to the model *)

Record Response : Type := {
  status_code : Z;
  text : string;
  (** [response.json()]: the decoded body, or the exception it raises. *)
  json : outcome pyval
}.

Definition is_request_exception (e : exn) : bool :=
  match e with RequestException _ => true | _ => false end.

Definition is_json_decode_error (e : exn) : bool :=
  match e with JSONDecodeError => true | _ => false end.

(** [str(exc)]. *)
Definition exn_text (e : exn) : string :=
  match e with
  | RequestException t | OtherException t => t
  | ConfigurationError m | ExternalServiceError m _
  | ValidationError m | ImageProcessingError m => m
  | _ => ""
  end.

Section Client.

Variable py_repr : pyval -> string.

(** [base64.b64encode(data).decode("ascii")]. *)
Variable b64encode : list Byte.byte -> string.

(** The injected session: what [session.post] answers, given everything that
    happened before the call. *)
Variable session_post :
  list event -> string -> gmap string string -> pyval -> Z * Z -> outcome Response.

Definition post (endpoint : string) (headers : gmap string string)
    (body : pyval) (timeout : Z * Z) : M Response :=
  fun tr =>
    ((tr ++ [NetPost endpoint body])%list,
     session_post tr endpoint headers body timeout).

(** [analyze_image]. *)
Definition analyze_image (self : DashScopeClient) (image_bytes : list Byte.byte)
    (image_format : string) (request_id : string) (context : option Context)
  : M DashScopeResult :=
  (if no_api_key self && negb (_force_mock self) then
     raise (ConfigurationError
       "DashScope API key is not configured. Set DASHSCOPE_API_KEY or enable mock mode.")
   else if _force_mock self || no_api_key self then
     ret (_mock_response context)
   else
     let encoded_image := b64encode image_bytes in
     let data_url :=
       "data:image/"
       ++ (if PyStr.truthy image_format then image_format else "jpeg")
       ++ ";base64," ++ encoded_image in
     let messages := _build_messages self data_url context in
     let payload :=
       PDict {[ "model" := PStr (_model self); "messages" := messages ]} in
     let headers : gmap string string :=
       {[ "Authorization" := "Bearer " ++ default "" (_api_key self);
          "Content-Type" := "application/json" ]} in
     let! response :=
       try_except (post (_endpoint self) headers payload (_timeout self))
         is_request_exception
         (fun exc =>
            raise (ExternalServiceError "Failed to connect to DashScope service."
                     {[ "request_id" := request_id; "error" := exn_text exc ]})) in
     if (400 <=? status_code response)%Z then
       raise (ExternalServiceError
                ("DashScope API returned HTTP "
                 ++ PyFormat.str_of_Z (status_code response) ++ ".")
                {[ "body" := String.substring 0 600 (text response);
                   "request_id" := request_id ]})
     else
       let! payload_json :=
         try_except (lift (json response)) is_json_decode_error
           (fun _ =>
              raise (ExternalServiceError "DashScope response parsing failed."
                       {[ "body" := String.substring 0 600 (text response);
                          "request_id" := request_id ]})) in
       let! summary := lift (_extract_summary py_repr payload_json) in
       let confidence := _extract_confidence summary in
       let fire_detected := _infer_fire_detection summary context confidence in
       ret {| summary :=
                if PyStr.truthy summary then summary
                else "DashScope analysis completed without textual summary.";
              fire_detected := fire_detected;
              confidence := confidence;
              raw_response := payload_json |})%py.

End Client.

End DashScope.

(** ** [forest_fire_api/image_processing.py] *)

Module ImageProcessing.

(** One RGB pixel; each channel is an 8-bit value. *)
Definition pixel : Type := Z * Z * Z.

Definition red (p : pixel) : Z := fst (fst p).
Definition green (p : pixel) : Z := snd (fst p).
Definition blue (p : pixel) : Z := snd p.

(** A decoded image: its rows, top to bottom, each a row of pixels. *)
Definition Image : Type := list (list pixel).

(** What [np.asarray] can hand to the heuristics: a height x width x 3 array,
    or an array of another rank or channel count. *)
Inductive ndarray : Type :=
| Rgb (rows : Image)
| OtherShape.

Definition shape0 (rows : Image) : nat := List.length rows.
Definition shape1 (rows : Image) : nat :=
  match rows with
  | [] => 0
  | row :: _ => List.length row
  end.

(** [l[::step]]: the elements at positions 0, step, 2*step, ... *)
Fixpoint stride_from {A} (step skip : nat) (l : list A) : list A :=
  match l with
  | [] => []
  | x :: t =>
      match skip with
      | O => x :: stride_from step (step - 1) t
      | S skip' => stride_from step skip' t
      end
  end.

Definition stride {A} (step : nat) (l : list A) : list A :=
  stride_from step 0 l.

(** [array[::f, ::f, :]]. *)
Definition subsample (f : nat) (rows : Image) : Image :=
  List.map (stride f) (stride f rows).

(** The sampling step of a heuristic that works on at most [limit] pixels
    per axis; 1 stands for leaving the array as it is. *)
Definition sampling_factor (limit : nat) (rows : Image) : nat :=
  if (limit <? shape0 rows) || (limit <? shape1 rows)
  then Nat.max (Nat.max (shape0 rows / limit) (shape1 rows / limit)) 1
  else 1.

Definition downsample (limit : nat) (rows : Image) : Image :=
  if (limit <? shape0 rows) || (limit <? shape1 rows)
  then subsample (sampling_factor limit rows) rows
  else rows.

(** [array.reshape(-1, 3)]. *)
Definition flatten (rows : Image) : list pixel := List.concat rows.

(** The value and saturation channels of OpenCV's 8-bit RGB to HSV
    conversion, as OpenCV documents them: V is the largest channel, S is
    255 (V - min) / V rounded to the nearest integer, and 0 when V is 0. *)
Definition cv2_value (p : pixel) : Z :=
  Z.max (red p) (Z.max (green p) (blue p)).

Definition cv2_min (p : pixel) : Z :=
  Z.min (red p) (Z.min (green p) (blue p)).

Definition cv2_saturation (p : pixel) : Z :=
  let v := cv2_value p in
  if (v =? 0)%Z then 0%Z
  else ((2 * 255 * (v - cv2_min p) + v) / (2 * v))%Z.

Definition sumZ (l : list Z) : Z := List.fold_right Z.add 0%Z l.

(** [np.mean] of a channel. *)
Definition mean (l : list Z) : Q :=
  (inject_Z (sumZ l) / inject_Z (Z.of_nat (List.length l)))%Q.

(** The square of [np.std] of a channel: the mean of the squares minus the
    square of the mean. *)
Definition variance (l : list Z) : Q :=
  (mean (List.map (fun x => x * x)%Z l) - mean l * mean l)%Q.

(** [np.std(channel) < bound] for a positive [bound], decided on the squares. *)
Definition std_lt (l : list Z) (bound : Q) : bool :=
  PyFloat.lt (variance l) (bound * bound)%Q.

(** [len(np.unique(flattened, axis=0))]. *)
Definition unique_colors (flattened : list pixel) : nat :=
  List.length (remove_dups flattened).

Definition unique_ratio (flattened : list pixel) : Q :=
  (inject_Z (Z.of_nat (unique_colors flattened))
   / inject_Z (Z.of_nat (List.length flattened)))%Q.

Definition saturation_mean (rows : Image) : Q :=
  mean (List.map cv2_saturation (flatten rows)).

Definition value_channel (rows : Image) : list Z :=
  List.map cv2_value (flatten rows).

(** [detect_thermal].  OpenCV refuses an array without pixels. *)
Definition detect_thermal (array : ndarray) : outcome bool :=
  match array with
  | OtherShape => Return true
  | Rgb rows =>
      let array := downsample 512 rows in
      match flatten array with
      | [] => Raise (OtherException "cv2.error")
      | flattened =>
          Return (PyFloat.lt (saturation_mean array) 25
                  || std_lt (value_channel array) 18
                  || PyFloat.lt (unique_ratio flattened) (8 # 100))
      end
  end.

Record PreparedImage : Type := {
  filename : string;
  content_type : string;
  image_format : string;
  width : nat;
  height : nat;
  image : Image;
  raw_bytes : list Byte.byte;
  is_thermal : bool;
  fire_probability : Q
}.

(** An upload as werkzeug presents it: the declared name (if any), the
    declared media type (the empty string if none) and what reading the
    stream gives. *)
Record FileStorage : Type := {
  fs_filename : option string;
  fs_mimetype : string;
  fs_read : outcome (list Byte.byte)
}.

(** What [Image.open] followed by [load] and [convert("RGB")] gives: the
    format the decoder recognised (if it names one) and the RGB pixels. *)
Record DecodedImage : Type := {
  pil_format : option string;
  pil_rgb : Image
}.

(** [s.split(sep)[-1]]. *)
Fixpoint last_segment (sep : ascii) (s acc : string) : string :=
  match s with
  | EmptyString => acc
  | String c t =>
      if Ascii.eqb c sep then last_segment sep t EmptyString
      else last_segment sep t (acc ++ String c EmptyString)
  end.

(** [sorted(names)]. *)
Definition sorted_strings (names : list string) : list string :=
  merge_sort (fun a b => Is_true (String.leb a b)) names.

(** [x or y] on strings. *)
Definition str_or (x y : string) : string :=
  if PyStr.truthy x then x else y.

Definition is_decode_error (e : exn) : bool :=
  match e with UnidentifiedImageError | OSError => true | _ => false end.

Section Intake.

(** The hue channel of OpenCV's 8-bit RGB to HSV conversion (0..179). *)
Variable cv2_hue : pixel -> Z.

(** [werkzeug.utils.secure_filename]. *)
Variable secure_filename : string -> string.

(** Pillow's decoder. *)
Variable pil_open : list Byte.byte -> outcome DecodedImage.

(** [cv2.inRange] on one HSV pixel. *)
Definition in_range (p : pixel) (lower upper : Z * Z * Z) : bool :=
  let h := cv2_hue p in
  let s := cv2_saturation p in
  let v := cv2_value p in
  ((red lower <=? h) && (h <=? red upper)
   && (green lower <=? s) && (s <=? green upper)
   && (blue lower <=? v) && (v <=? blue upper))%Z.

(** [estimate_fire_probability]. *)
Definition estimate_fire_probability (array : ndarray) : outcome Q :=
  match array with
  | OtherShape => Return 0%Q
  | Rgb rows =>
      let array := downsample 640 rows in
      match flatten array with
      | [] => Raise (OtherException "cv2.error")
      | flattened =>
          let combined_mask :=
            List.map
              (fun p => in_range p (0, 70, 80)%Z (15, 255, 255)%Z
                        || in_range p (160, 70, 80)%Z (179, 255, 255)%Z)
              flattened in
          let size := List.length combined_mask in
          let red_ratio :=
            (inject_Z (Z.of_nat (List.length (List.filter id combined_mask)))
             / inject_Z (Z.of_nat (if size =? 0 then 1 else size)))%Q in
          let brightness := (mean (value_channel array) / 255)%Q in
          Return (PyFloat.max 0
                    (PyFloat.min 1
                       ((65 # 100) * red_ratio + (35 # 100) * brightness)%Q))
      end
  end.

(** [prepare_image].  [index] tells which upload of the request this is; it
    only labels the events. *)
Definition prepare_image (index : nat) (file_storage : FileStorage)
    (allowed_mime_types : gset string) (max_content_length : Z)
  : M PreparedImage :=
  (let filename :=
     secure_filename
       (match fs_filename file_storage with
        | Some name => str_or name "image.jpg"
        | None => "image.jpg"
        end) in
   if negb (PyStr.truthy filename) then
     raise (ValidationError "Uploaded file must include a valid filename.")
   else
   let content_type := PyStr.lower (str_or (fs_mimetype file_storage) "") in
   if PyStr.truthy content_type
      && negb (bool_decide (content_type ∈ allowed_mime_types))
   then
     raise (ValidationError
              ("Unsupported file type '" ++ content_type
               ++ "'. Allowed types: "
               ++ PyStr.join ", " (sorted_strings (elements allowed_mime_types))
               ++ "."))
   else
   let! raw_bytes :=
     try_except
       (run! emit (StreamRead index) in lift (fs_read file_storage))
       DashScope.is_exception
       (fun _ =>
          raise (ImageProcessingError
                   ("Failed to read uploaded image '" ++ filename ++ "'."))) in
   match raw_bytes with
   | [] =>
       raise (ValidationError ("Uploaded image '" ++ filename ++ "' is empty."))
   | _ =>
   if (max_content_length <? Z.of_nat (List.length raw_bytes))%Z then
     raise (ValidationError
              ("Uploaded image '" ++ filename
               ++ "' exceeds the maximum allowed size of "
               ++ PyFormat.str_of_Z max_content_length ++ " bytes."))
   else
   let! decoded :=
     try_except
       (run! emit (ImageDecode index) in lift (pil_open raw_bytes))
       is_decode_error
       (fun _ =>
          raise (ImageProcessingError
                   ("Unable to decode image '" ++ filename
                    ++ "'. Please provide a valid image file."))) in
   let rgb_image := pil_rgb decoded in
   let image_format :=
     PyStr.lower
       (str_or (default "" (pil_format decoded))
          (str_or (last_segment "/" content_type EmptyString) "jpeg")) in
   let array := Rgb rgb_image in
   let! is_thermal := lift (detect_thermal array) in
   let! fire_probability := lift (estimate_fire_probability array) in
   ret {| filename := filename;
          content_type :=
            str_or content_type ("image/" ++ image_format);
          image_format := image_format;
          width := shape1 rgb_image;
          height := shape0 rgb_image;
          image := rgb_image;
          raw_bytes := raw_bytes;
          is_thermal := is_thermal;
          fire_probability := fire_probability |}
   end)%py.

End Intake.

End ImageProcessing.

(** ** [forest_fire_api/routes.py] *)

Module Routes.

Import ImageProcessing.

(** The keys only a result of the model path carries.  ["latency_ms"] is a
    clock reading and is left out. *)
Record ModelFields : Type := {
  res_dashscope_model : option string;
  res_raw_response : pyval
}.

(** One entry of ["results"]. *)
Record ImageResult : Type := {
  res_filename : string;
  res_width : nat;
  res_height : nat;
  res_fire_detected : bool;
  res_confidence : option Q;
  res_analysis_summary : string;
  res_local_fire_probability : Q;
  res_is_thermal : bool;
  res_source : string;
  res_model_fields : option ModelFields
}.

(** One entry of ["annotated_images"]. *)
Record AnnotatedImage : Type := {
  ann_filename : string;
  ann_image_base64 : string
}.

(** The JSON body of the answer and its status code; ["duration_ms"] is a
    clock reading and is left out. *)
Record RouteResponse : Type := {
  resp_status : string;
  resp_request_id : string;
  resp_results : list ImageResult;
  resp_annotated_images : list AnnotatedImage;
  resp_code : Z
}.

(** The entries of [current_app.config] the route reads. *)
Record AppConfig : Type := {
  MAX_IMAGES_PER_REQUEST : option Z;
  MIN_IMAGES_PER_REQUEST : option Z;
  ALLOWED_MIME_TYPES : gset string;
  MAX_CONTENT_LENGTH : Z;
  DASHSCOPE_MODEL : option string
}.

(** The uploads of a request, by form field. *)
Record HttpRequest : Type := {
  files_images : list FileStorage;
  files_image : list FileStorage
}.

(** [request.files.getlist("images") or request.files.getlist("image")]. *)
Definition uploaded_files (request : HttpRequest) : list FileStorage :=
  match files_images request with
  | [] => files_image request
  | files => files
  end.

Definition thermal_summary : string :=
  "Thermal image detected and skipped from DashScope analysis.".

(** The entry appended for an image the thermal filter caught. *)
Definition thermal_result (prepared : PreparedImage) : ImageResult :=
  {| res_filename := filename prepared;
     res_width := width prepared;
     res_height := height prepared;
     res_fire_detected := false;
     res_confidence := None;
     res_analysis_summary := thermal_summary;
     res_local_fire_probability := fire_probability prepared;
     res_is_thermal := true;
     res_source := "thermal-filter";
     res_model_fields := None |}.

(** The entry appended for an image the model analysed. *)
Definition model_result (config : AppConfig) (prepared : PreparedImage)
    (analysis : DashScope.DashScopeResult) : ImageResult :=
  {| res_filename := filename prepared;
     res_width := width prepared;
     res_height := height prepared;
     res_fire_detected := DashScope.fire_detected analysis;
     res_confidence := DashScope.confidence analysis;
     res_analysis_summary := DashScope.summary analysis;
     res_local_fire_probability := fire_probability prepared;
     res_is_thermal := false;
     res_source := "dashscope";
     res_model_fields :=
       Some {| res_dashscope_model := DASHSCOPE_MODEL config;
               res_raw_response := DashScope.raw_response analysis |} |}.

Section Route.

Variable cv2_hue : pixel -> Z.
Variable secure_filename : string -> string.
Variable pil_open : list Byte.byte -> outcome DecodedImage.
Variable py_repr : pyval -> string.
Variable b64encode : list Byte.byte -> string.
Variable session_post :
  list event -> string -> gmap string string -> pyval -> Z * Z
  -> outcome DashScope.Response.

(** [annotate_image] and [save_annotated_image]: drawing and encoding are
    Pillow's; either may raise. *)
Variable annotate_image : Image -> string -> bool -> outcome Image.
Variable save_annotated_image : Image -> string -> string -> outcome string.

(** [Path(name).stem]. *)
Variable path_stem : string -> string.

Variable config : AppConfig.
Variable dashscope_client : DashScope.DashScopeClient.
Variable request_id : string.

(** The body of the loop over [enumerate(files, start=1)], from the upload
    at position [index] on; [results] and [annotated_images] are the lists
    built so far.  The scratch directory of [managed_temp_dir] belongs to the
    environment of [save_annotated_image] and is not represented. *)
Fixpoint process_images (index : nat) (files : list FileStorage)
    (results : list ImageResult) (annotated_images : list AnnotatedImage)
  : M (list ImageResult * list AnnotatedImage) :=
  match files with
  | [] => ret (results, annotated_images)
  | file_storage :: rest =>
      (run! emit (StreamSeek index) in
       let! prepared :=
         prepare_image cv2_hue secure_filename pil_open index file_storage
           (ALLOWED_MIME_TYPES config) (MAX_CONTENT_LENGTH config) in
       if is_thermal prepared then
         let summary := thermal_summary in
         let! annotated :=
           (run! emit (Annotate index) in
            lift (annotate_image (image prepared) summary false)) in
         let! encoded :=
           (run! emit (SaveAnnotated index) in
            lift (save_annotated_image annotated
                    (path_stem (filename prepared)) (image_format prepared))) in
         process_images (S index) rest
           (results ++ [thermal_result prepared])%list
           (annotated_images
            ++ [{| ann_filename := filename prepared;
                   ann_image_base64 := encoded |}])%list
       else
         let! analysis :=
           try_except
             (run! emit (ClientCall index) in
              DashScope.analyze_image py_repr b64encode session_post
                dashscope_client (raw_bytes prepared) (image_format prepared)
                request_id
                (Some {| DashScope.ctx_filename := Some (filename prepared);
                         DashScope.ctx_local_probability :=
                           Some (fire_probability prepared) |}))
             (fun e => negb (is_api_error e))
             (fun exc =>
                raise (ExternalServiceError
                         "Unexpected error while invoking DashScope service."
                         {[ "filename" := filename prepared;
                            "error" := DashScope.exn_text exc ]})) in
         let summary := DashScope.summary analysis in
         let! annotated :=
           (run! emit (Annotate index) in
            lift (annotate_image (image prepared) summary
                    (DashScope.fire_detected analysis))) in
         let! encoded :=
           (run! emit (SaveAnnotated index) in
            lift (save_annotated_image annotated
                    (path_stem (filename prepared)) (image_format prepared))) in
         process_images (S index) rest
           (results ++ [model_result config prepared analysis])%list
           (annotated_images
            ++ [{| ann_filename := filename prepared;
                   ann_image_base64 := encoded |}])%list)%py
  end.

(** [ai_enhanced_fire_detect]. *)
Definition ai_enhanced_fire_detect (request : HttpRequest) : M RouteResponse :=
  (let files := uploaded_files request in
   match files with
   | [] =>
       raise (ValidationError
                "At least one image file must be uploaded under the 'images' field.")
   | _ =>
   let max_images := default 2%Z (MAX_IMAGES_PER_REQUEST config) in
   let min_images := default 1%Z (MIN_IMAGES_PER_REQUEST config) in
   if (Z.of_nat (List.length files) <? min_images)%Z then
     raise (ValidationError
              ("At least " ++ PyFormat.str_of_Z min_images
               ++ " image(s) must be provided."))
   else if (max_images <? Z.of_nat (List.length files))%Z then
     raise (ValidationError
              ("At most " ++ PyFormat.str_of_Z max_images
               ++ " image(s) can be processed per request."))
   else
     let! (results, annotated_images) := process_images 1 files [] [] in
     ret {| resp_status := "success";
            resp_request_id := request_id;
            resp_results := results;
            resp_annotated_images := annotated_images;
            resp_code := 200 |}
   end)%py.

End Route.

End Routes.

(** * Properties of the response parsing *)

Module InferenceFacts.

Import DashScope.


Definition at_least_half (x : option Q) : bool :=
  match x with
  | Some v => PyFloat.ge v PyFloat.half
  | None => false
  end.

(** Steps (b) to (f) of the precedence, on a summary that is not empty. *)
Definition text_precedence (summary : string) (confidence local : option Q)
  : bool :=
  let text := PyStr.lower summary in
  if existsb (fun token => PyStr.contains token text) negative_tokens
  then false
  else if existsb (fun token => PyStr.contains token text) affirmative_tokens
  then negb (existsb (fun token => PyStr.contains ("no " ++ token) text)
               affirmative_tokens)
  else match confidence with
       | Some c => PyFloat.ge c PyFloat.half
       | None => at_least_half local
       end.

(** The precedence in the words of the specification: on an empty summary a
    known confidence decides alone. *)
Definition precedence_as_stated (summary : string) (confidence local : option Q)
  : bool :=
  match summary with
  | EmptyString =>
      match confidence with
      | Some c => PyFloat.ge c PyFloat.half
      | None => at_least_half local
      end
  | _ => text_precedence summary confidence local
  end.

(** The precedence the code follows: on an empty summary either signal
    reaching one half is enough. *)
Definition precedence_of_code (summary : string) (confidence local : option Q)
  : bool :=
  match summary with
  | EmptyString => at_least_half confidence || at_least_half local
  | _ => text_precedence summary confidence local
  end.

Lemma ge_half_zero : PyFloat.ge 0 PyFloat.half = false.
Proof. reflexivity. Qed.





(** Where the two precedences part: only on an empty summary that comes with
    a known confidence. *)
Lemma precedence_as_stated_agrees
    (summary : string) (confidence local : option Q) :
  summary <> "" \/ confidence = None ->
  precedence_of_code summary confidence local
  = precedence_as_stated summary confidence local.
Proof.
  intros [Hs | ->]; destruct summary; try reflexivity. now destruct Hs.
Qed.

(** The three examples of the specification. *)
Example infer_no_fire_detected :
  _infer_fire_detection "No fire detected in this scene" None None = false.
Proof. reflexivity. Qed.

Example infer_visible_flame :
  _infer_fire_detection "Visible flame and heavy smoke" None None = true.
Proof. reflexivity. Qed.

Example infer_empty_local :
  _infer_fire_detection ""
    (Some {| ctx_filename := None; ctx_local_probability := Some (7 # 10)%Q |})
    None = true.
Proof. reflexivity. Qed.

(** A summary that contains a token is not the empty one. *)
Lemma contains_nonempty (token text : string) :
  token <> "" -> PyStr.contains token text = true -> text <> "".
Proof.
  intros Htok Hc ->. destruct token; [now apply Htok|]. discriminate Hc.
Qed.

Lemma lower_nonempty (s : string) : PyStr.lower s <> "" -> s <> "".
Proof. intros H ->. now apply H. Qed.

Lemma existsb_false_intro {A} (f : A -> bool) (l : list A) :
  (forall x, In x l -> f x = false) -> existsb f l = false.
Proof.
  intros H. destruct (existsb f l) eqn:E; [|reflexivity].
  apply existsb_exists in E as (x & Hin & Hx).
  rewrite (H x Hin) in Hx. discriminate Hx.
Qed.

Lemma affirmative_token_nonempty (token : string) :
  In token affirmative_tokens -> token <> "".
Proof.
  unfold affirmative_tokens; simpl.
  intros H; repeat (destruct H as [<- | H]; [discriminate|]). destruct H.
Qed.

(** C10: the affirmative check is substring containment on the lowercased
    summary.  If some affirmative token occurs anywhere in it -- inside a
    longer word included -- while no negative phrase and no "no <token>"
    occurs, the answer is true whatever the confidence and the context. *)
Theorem affirmative_substring_detects
    (summary token : string) (context : option Context) (confidence : option Q) :
  In token affirmative_tokens ->
  PyStr.contains token (PyStr.lower summary) = true ->
  (forall phrase, In phrase negative_tokens ->
     PyStr.contains phrase (PyStr.lower summary) = false) ->
  (forall tok, In tok affirmative_tokens ->
     PyStr.contains ("no " ++ tok) (PyStr.lower summary) = false) ->
  _infer_fire_detection summary context confidence = true.
Proof.
  intros Htok Hin Hneg Hno.
  assert (Hs : summary <> "").
  { apply lower_nonempty.
    eapply contains_nonempty; [|exact Hin].
    now apply affirmative_token_nonempty. }
  unfold _infer_fire_detection.
  destruct summary as [|c rest]; [now destruct Hs|].
  cbn [PyStr.truthy negb].
  rewrite (existsb_false_intro _ negative_tokens) by exact Hneg.
  assert (Haff : existsb (fun t => PyStr.contains t (PyStr.lower (String c rest)))
                   affirmative_tokens = true).
  { apply existsb_exists. now exists token. }
  rewrite Haff.
  now rewrite (existsb_false_intro _ affirmative_tokens) by exact Hno.
Qed.

(** Decides the two absence conditions of the theorem on a given text. *)
Lemma absent_by_computation (tokens : list string) (f : string -> string)
    (text : string) :
  existsb (fun t => PyStr.contains (f t) text) tokens = false ->
  forall t, In t tokens -> PyStr.contains (f t) text = false.
Proof.
  intros H t Hin. destruct (PyStr.contains (f t) text) eqn:E; [|reflexivity].
  assert (existsb (fun t => PyStr.contains (f t) text) tokens = true)
    by (apply existsb_exists; now exists t).
  congruence.
Qed.

Lemma affirmative_substring_detects_witness :
  _infer_fire_detection "Campfire remains near the trail" None (Some 0%Q)
  = true.
Proof.
  apply (affirmative_substring_detects _ "fire").
  - simpl. tauto.
  - reflexivity.
  - apply (absent_by_computation negative_tokens (fun t => t)). reflexivity.
  - apply (absent_by_computation affirmative_tokens (fun t => "no " ++ t)).
    reflexivity.
Defined.

(** Tokens inside longer words, against a confidence and a local
    probability that both say no. *)
Example infer_embedded_tokens :
  let context := Some {| ctx_filename := None;
                         ctx_local_probability := Some 0%Q |} in
  _infer_fire_detection "a campfire" context (Some 0%Q) = true
  /\ _infer_fire_detection "one firefighter" context (Some 0%Q) = true
  /\ _infer_fire_detection "burnt grass" context (Some 0%Q) = true
  /\ _infer_fire_detection "smoked fish" context (Some 0%Q) = true.
Proof. repeat split; reflexivity. Qed.

End InferenceFacts.

Module SummaryFacts.

Import DashScope.


Section Shapes.

Variable py_repr : pyval -> string.


Lemma extract_summary_raise (payload : pyval) (e : exn) :
  extract_summary_try py_repr payload = Raise e ->
  _extract_summary py_repr payload = Return "".
Proof. unfold _extract_summary. now intros ->. Qed.

Lemma extract_summary_of_try (payload : pyval) (r : option string) :
  extract_summary_try py_repr payload = Return r ->
  _extract_summary py_repr payload = Return (default "" r).
Proof. unfold _extract_summary. intros ->. now destruct r. Qed.




End Shapes.

(** A payload of the expected shape around a given content. *)
Definition payload_with (content : pyval) : pyval :=
  PDict {[ "choices" :=
             PList [PDict {[ "message" := PDict {[ "content" := content ]} ]}] ]}.

Example summary_of_text (py_repr : pyval -> string) :
  _extract_summary py_repr (payload_with (PStr "  Smoke rising.  "))
  = Return "Smoke rising.".
Proof. reflexivity. Qed.

Example summary_of_blocks (py_repr : pyval -> string) :
  _extract_summary py_repr
    (payload_with
       (PList [ text_block " first "; PDict {[ "type" := PStr "image_url" ]};
                text_block "second" ]))
  = Return ("first" ++ newline ++ "second").
Proof. reflexivity. Qed.

Example summary_of_plain_entries (py_repr : pyval -> string) :
  _extract_summary py_repr
    (payload_with (PList [ PStr "alpha"; PDict {[ "other" := PInt 1 ]};
                           PStr "beta " ]))
  = Return ("alpha" ++ newline ++ "beta").
Proof. reflexivity. Qed.

Example summary_of_malformed_block (py_repr : pyval -> string) :
  _extract_summary py_repr
    (payload_with (PList [ PDict {[ "type" := PStr "text"; "text" := PInt 5 ]} ]))
  = Return "".
Proof. reflexivity. Qed.

Example summary_of_other_shapes (py_repr : pyval -> string) :
  _extract_summary py_repr (PDict ∅) = Return ""
  /\ _extract_summary py_repr (PList []) = Return ""
  /\ _extract_summary py_repr (PDict {[ "choices" := PStr "text" ]}) = Return ""
  /\ _extract_summary py_repr (PDict {[ "choices" := PInt 3 ]}) = Return ""
  /\ _extract_summary py_repr (PDict {[ "choices" := PList [PDict ∅] ]})
     = Return ""
  /\ _extract_summary py_repr (payload_with PNone) = Return "".
Proof. repeat split; reflexivity. Qed.

End SummaryFacts.

(** * Properties of the client *)

Module FormatFacts.

Import PyFormat.

Lemma round_half_even_close (x : Q) :
  (Qabs (x - inject_Z (round_half_even x)) <= 1 # 2)%Q.
Proof.
  unfold round_half_even.
  pose proof (Qfloor_le x) as Hlo.
  pose proof (Qlt_floor x) as Hhi.
  set (f := Qfloor x) in *.
  assert (Hup : (inject_Z (f + 1) == inject_Z f + 1)%Q)
    by (rewrite inject_Z_plus; reflexivity).
  rewrite Hup in Hhi.
  destruct (Qcompare (x - inject_Z f) (1 # 2)) eqn:Hc.
  - apply Qeq_alt in Hc.
    destruct (Z.even f); [|rewrite Hup]; apply Qabs_case; intros; lra.
  - apply Qlt_alt in Hc. apply Qabs_case; intros; lra.
  - apply Qgt_alt in Hc. rewrite Hup. apply Qabs_case; intros; lra.
Qed.

Lemma round_half_even_nonneg (x : Q) : (0 <= x)%Q -> (0 <= round_half_even x)%Z.
Proof.
  intros H. unfold round_half_even.
  assert (0 <= Qfloor x)%Z.
  { change 0%Z with (Qfloor 0). now apply Qfloor_resp_le. }
  destruct (Qcompare _ _); [destruct (Z.even _)| |]; lia.
Qed.

Lemma tenths_nonneg (x : Q) : (0 <= tenths x)%Z.
Proof.
  apply round_half_even_nonneg.
  apply Qmult_le_0_compat; [apply Qabs_nonneg|discriminate].
Qed.

(** The printed magnitude is the nearest number of tenths. *)
Lemma tenths_nearest (x : Q) :
  (Qabs (Qabs x * 10 - inject_Z (tenths x)) <= 1 # 2)%Q.
Proof. apply round_half_even_close. Qed.

Lemma digit_text_length (d : Z) :
  (0 <= d < 10)%Z -> String.length (str_of_Z d) = 1.
Proof.
  intros H.
  assert (d = 0 \/ d = 1 \/ d = 2 \/ d = 3 \/ d = 4 \/ d = 5 \/ d = 6
          \/ d = 7 \/ d = 8 \/ d = 9)%Z as Hd by lia.
  repeat (destruct Hd as [-> | Hd]; [reflexivity|]). now subst.
Qed.

(** One decimal place: after the point comes exactly one digit. *)
Lemma format_1f_one_decimal (x : Q) :
  exists sign whole digit : string,
    format_1f x = sign ++ whole ++ "." ++ digit
    /\ String.length digit = 1
    /\ whole = str_of_Z (tenths x / 10)
    /\ digit = str_of_Z (tenths x mod 10).
Proof.
  exists (if PyFloat.lt x 0 then "-" else ""),
         (str_of_Z (tenths x / 10)), (str_of_Z (tenths x mod 10)).
  repeat split.
  apply digit_text_length. apply Z.mod_pos_bound. lia.
Qed.

Lemma append_cons (c : ascii) (s t : string) :
  String c s ++ t = String c (s ++ t).
Proof. reflexivity. Qed.

Lemma append_assoc (s t u : string) : (s ++ t) ++ u = s ++ t ++ u.
Proof.
  induction s as [|c s IH]; [reflexivity|].
  now rewrite !append_cons, IH.
Qed.

Lemma prefix_append (needle rest : string) :
  String.prefix needle (needle ++ rest) = true.
Proof.
  induction needle as [|c needle IH]; simpl.
  - now destruct rest.
  - destruct (ascii_dec c c) as [_|Hne]; [exact IH|now destruct Hne].
Qed.

Lemma contains_of_prefix (needle hay : string) :
  String.prefix needle hay = true -> PyStr.contains needle hay = true.
Proof. intros H. destruct hay; cbn [PyStr.contains]; now rewrite H. Qed.

Lemma contains_inside (front needle rest : string) :
  PyStr.contains needle (front ++ needle ++ rest) = true.
Proof.
  induction front as [|c front IH].
  - change ("" ++ needle ++ rest) with (needle ++ rest).
    apply contains_of_prefix, prefix_append.
  - change (String c front ++ needle ++ rest)
      with (String c (front ++ needle ++ rest)).
    cbn [PyStr.contains]. rewrite IH. apply orb_true_r.
Qed.

End FormatFacts.

Module ClientFacts.

Import DashScope.

(** A transport that refuses every connection. *)
Definition offline_session (tr : list event) (endpoint : string)
    (headers : gmap string string) (body : pyval) (timeout : Z * Z)
  : outcome Response :=
  Raise (RequestException "connection refused").

Definition sample_client (key : option string) (force_mock : bool)
  : DashScopeClient :=
  {| _api_key := key;
     _endpoint := "https://dashscope.example/v1/chat/completions";
     _model := "qwen-vl-max";
     _timeout := (10, 120)%Z;
     _force_mock := force_mock;
     _analysis_prompt := "Analyse the image." |}.


Section Analyze.

Variable py_repr : pyval -> string.
Variable b64encode : list Byte.byte -> string.
Variable session_post :
  list event -> string -> gmap string string -> pyval -> Z * Z -> outcome Response.

Let analyze := analyze_image py_repr b64encode session_post.

(** C3: without a credential (none, or an empty one) and without forced
    mock mode, every call raises ConfigurationError; the trace of events is
    left as it was, so nothing was sent, and no verdict is returned. *)
Theorem analyze_without_credential_raises
    (self : DashScopeClient) (image_bytes : list Byte.byte)
    (image_format request_id : string) (context : option Context)
    (tr : list event) :
  no_api_key self = true ->
  _force_mock self = false ->
  analyze self image_bytes image_format request_id context tr
  = (tr, Raise (ConfigurationError
       "DashScope API key is not configured. Set DASHSCOPE_API_KEY or enable mock mode.")).
Proof.
  intros Hkey Hforce. unfold analyze, analyze_image.
  rewrite Hkey, Hforce. reflexivity.
Qed.

(** The mock branch is the forced one: with the guard of C3 in front of it,
    an absent credential alone never reaches it. *)
Lemma mock_branch_iff_forced (self : DashScopeClient) :
  negb (no_api_key self && negb (_force_mock self))
  && (_force_mock self || no_api_key self)
  = _force_mock self.
Proof. destruct (no_api_key self), (_force_mock self); reflexivity. Qed.



End Analyze.

Definition no_repr (v : pyval) : string := "".
Definition no_b64 (data : list Byte.byte) : string := "".

Lemma analyze_without_credential_raises_witness :
  analyze_image no_repr no_b64 offline_session (sample_client None false)
    [] "jpeg" "req-1" None []
  = ([], Raise (ConfigurationError
       "DashScope API key is not configured. Set DASHSCOPE_API_KEY or enable mock mode.")).
Proof.
  apply (analyze_without_credential_raises no_repr no_b64 offline_session
           (sample_client None false)); reflexivity.
Defined.


(** The example of the specification: a local probability of 0.8. *)
Example mock_eighty_percent :
  let r := _mock_response
             (Some {| ctx_filename := Some "a.jpg";
                      ctx_local_probability := Some (8 # 10)%Q |}) in
  fire_detected r = true
  /\ confidence r = Some (8 # 10)%Q
  /\ PyStr.contains "80.0%" (summary r) = true.
Proof. repeat split; reflexivity. Qed.

End ClientFacts.

(** * Properties of the local heuristics *)

Module ThermalFacts.

Import ImageProcessing.




Lemma lt_spec (a b : Q) : PyFloat.lt a b = true <-> (a < b)%Q.
Proof.
  unfold PyFloat.lt. rewrite negb_true_iff.
  split; intros H.
  - apply Qnot_le_lt. intros Hle. apply Qle_bool_iff in Hle. congruence.
  - destruct (Qle_bool b a) eqn:E; [|reflexivity].
    apply Qle_bool_iff in E. exfalso. now apply (Qlt_not_le a b).
Qed.





Lemma downsample_small (limit : nat) (rows : Image) :
  shape0 rows <= limit -> shape1 rows <= limit -> downsample limit rows = rows.
Proof.
  intros H0 H1. unfold downsample.
  apply Nat.ltb_ge in H0, H1. now rewrite H0, H1.
Qed.

Lemma downsample_large (limit : nat) (rows : Image) :
  limit < shape0 rows \/ limit < shape1 rows ->
  downsample limit rows
  = subsample (Nat.max (Nat.max (shape0 rows / limit) (shape1 rows / limit)) 1)
      rows.
Proof.
  intros H. unfold downsample, sampling_factor.
  assert ((limit <? shape0 rows) || (limit <? shape1 rows) = true) as ->.
  { apply orb_true_iff. destruct H; [left|right]; now apply Nat.ltb_lt. }
  reflexivity.
Qed.





Definition gray_square : Image :=
  [ [ (90, 90, 90)%Z; (200, 200, 200)%Z ];
    [ (10, 10, 10)%Z; (255, 255, 255)%Z ] ].


(** A colourful 2 x 2 picture passes the filter, a gray one does not, and an
    array that is not of shape height x width x 3 is thermal by default. *)
Example detect_thermal_samples :
  detect_thermal
    (Rgb [ [ (255, 0, 0)%Z; (0, 255, 0)%Z ]; [ (0, 0, 255)%Z; (40, 40, 0)%Z ] ])
  = Return false
  /\ detect_thermal (Rgb gray_square) = Return true
  /\ detect_thermal OtherShape = Return true.
Proof. repeat split; reflexivity. Qed.

End ThermalFacts.

(** * Properties of the orchestration *)

(** Three ways of looking at a computation of [M]: which events it adds,
    whether its outcome depends on the events before it, and what holds of
    the value it returns. *)
Module MonadFacts.

Section Laws.

Context {A B : Type}.

(** [m] only appends events, and each of them satisfies [P]. *)
Definition appends (P : event -> Prop) {X} (m : M X) : Prop :=
  forall tr, exists evs, fst (m tr) = (tr ++ evs)%list /\ Forall P evs.

(** The outcome of [m] is the same after any history. *)
Definition history_free {X} (m : M X) : Prop :=
  forall tr, snd (m tr) = snd (m []).

(** Whatever [m] returns satisfies [Q]. *)
Definition returns {X} (Q : X -> Prop) (m : M X) : Prop :=
  forall tr tr' x, m tr = (tr', Return x) -> Q x.

Variable P : event -> Prop.

Lemma appends_ret (a : A) : appends P (ret a).
Proof. intros tr. exists []. split; [now rewrite app_nil_r|constructor]. Qed.

Lemma appends_raise (e : exn) : appends P (@raise A e).
Proof. intros tr. exists []. split; [now rewrite app_nil_r|constructor]. Qed.

Lemma appends_lift (o : outcome A) : appends P (lift o).
Proof. intros tr. exists []. split; [now rewrite app_nil_r|constructor]. Qed.

Lemma appends_emit (e : event) : P e -> appends P (emit e).
Proof. intros He tr. exists [e]. split; [reflexivity|now repeat constructor]. Qed.

Lemma appends_bind (m : M A) (k : A -> M B) :
  appends P m -> (forall a, appends P (k a)) -> appends P (bind m k).
Proof.
  intros Hm Hk tr. unfold bind.
  destruct (Hm tr) as (evs & Htr & Hevs).
  destruct (m tr) as [tr1 [a|e]]; simpl in Htr; subst tr1.
  - destruct (Hk a (tr ++ evs)%list) as (evs' & Htr' & Hevs').
    exists (evs ++ evs')%list. split.
    + now rewrite Htr', app_assoc.
    + now apply Forall_app.
  - now exists evs.
Qed.

Lemma appends_try_except (m : M A) (handled : exn -> bool) (h : exn -> M A) :
  appends P m -> (forall e, appends P (h e)) ->
  appends P (try_except m handled h).
Proof.
  intros Hm Hh tr. unfold try_except.
  destruct (Hm tr) as (evs & Htr & Hevs).
  destruct (m tr) as [tr1 [a|e]]; simpl in Htr; subst tr1.
  - now exists evs.
  - destruct (handled e); [|now exists evs].
    destruct (Hh e (tr ++ evs)%list) as (evs' & Htr' & Hevs').
    exists (evs ++ evs')%list. split.
    + now rewrite Htr', app_assoc.
    + now apply Forall_app.
Qed.

Lemma history_free_ret (a : A) : history_free (ret a).
Proof. now intros tr. Qed.

Lemma history_free_raise (e : exn) : history_free (@raise A e).
Proof. now intros tr. Qed.

Lemma history_free_lift (o : outcome A) : history_free (lift o).
Proof. now intros tr. Qed.

Lemma history_free_emit (e : event) : history_free (emit e).
Proof. now intros tr. Qed.

Lemma history_free_bind (m : M A) (k : A -> M B) :
  history_free m -> (forall a, history_free (k a)) -> history_free (bind m k).
Proof.
  intros Hm Hk tr. unfold bind.
  pose proof (Hm tr) as H.
  destruct (m tr) as [tr1 o1], (m []) as [tr0 o0]; simpl in H; subst o0.
  destruct o1 as [a|e]; [|reflexivity].
  now rewrite (Hk a tr1), (Hk a tr0).
Qed.

Lemma history_free_try_except (m : M A) (handled : exn -> bool)
    (h : exn -> M A) :
  history_free m -> (forall e, history_free (h e)) ->
  history_free (try_except m handled h).
Proof.
  intros Hm Hh tr. unfold try_except.
  pose proof (Hm tr) as H.
  destruct (m tr) as [tr1 o1], (m []) as [tr0 o0]; simpl in H; subst o0.
  destruct o1 as [a|e]; [reflexivity|].
  destruct (handled e); [|reflexivity].
  now rewrite (Hh e tr1), (Hh e tr0).
Qed.

Lemma appends_weaken (P' : event -> Prop) (m : M A) :
  (forall e, P e -> P' e) -> appends P m -> appends P' m.
Proof.
  intros HP Hm tr. destruct (Hm tr) as (evs & Htr & Hevs).
  exists evs. split; [exact Htr|].
  eapply Forall_impl; [exact Hevs|exact HP].
Qed.

Lemma appends_run (m : M A) (tr tr' : list event) (o : outcome A) :
  appends P m -> m tr = (tr', o) ->
  exists evs, tr' = (tr ++ evs)%list /\ Forall P evs.
Proof.
  intros Hm Hrun. destruct (Hm tr) as (evs & Htr & Hevs).
  rewrite Hrun in Htr. now exists evs.
Qed.

Lemma bind_inv (m : M A) (k : A -> M B) (tr tr' : list event)
    (o : outcome B) :
  bind m k tr = (tr', o) ->
  (exists tr1 a, m tr = (tr1, Return a) /\ k a tr1 = (tr', o))
  \/ (exists e, m tr = (tr', Raise e) /\ o = Raise e).
Proof.
  unfold bind. destruct (m tr) as [tr1 [a|e]]; intros H.
  - left. now exists tr1, a.
  - right. injection H as <- <-. now exists e.
Qed.

Lemma labelled_inv (ev : event) (o' o : outcome A) (tr tr' : list event) :
  bind (emit ev) (fun _ => lift o') tr = (tr', o) ->
  tr' = (tr ++ [ev])%list /\ o = o'.
Proof. unfold bind, emit, lift. now intros [= <- <-]. Qed.

Variable Q : B -> Prop.

Lemma returns_ret (b : B) : Q b -> returns Q (ret b).
Proof. intros Hb tr tr' x [= _ <-]. exact Hb. Qed.

Lemma returns_raise (e : exn) : returns Q (@raise B e).
Proof. intros tr tr' x [= ]. Qed.

Lemma returns_bind (m : M A) (k : A -> M B) :
  (forall a, returns Q (k a)) -> returns Q (bind m k).
Proof.
  intros Hk tr tr' x. unfold bind.
  destruct (m tr) as [tr1 [a|e]]; [apply Hk|discriminate].
Qed.

End Laws.

End MonadFacts.

Module RouteFacts.

Import ImageProcessing Routes MonadFacts.

(** The name an upload declares, or the default one when it declares none:
    [file_storage.filename or "image.jpg"]. *)
Definition declared_name (file_storage : FileStorage) : string :=
  match fs_filename file_storage with
  | Some name => str_or name "image.jpg"
  | None => "image.jpg"
  end.

Definition is_client_call (e : event) : Prop :=
  match e with ClientCall _ => True | _ => False end.

Definition no_client_call (e : event) : Prop := ~ is_client_call e.

Ltac appends_steps :=
  repeat first
    [ apply appends_ret | apply appends_raise | apply appends_lift
    | apply appends_emit; unfold no_client_call; simpl; tauto
    | apply appends_bind; [|intros ?]
    | apply appends_try_except; [|intros ?]
    | progress (lazy beta zeta)
    | case_match ].

Ltac history_free_steps :=
  repeat first
    [ apply history_free_ret | apply history_free_raise
    | apply history_free_lift | apply history_free_emit
    | apply history_free_bind; [|intros ?]
    | apply history_free_try_except; [|intros ?]
    | progress (lazy beta zeta)
    | case_match ].

Ltac returns_steps :=
  repeat first
    [ apply returns_raise
    | apply returns_bind; intros ?
    | progress (lazy beta zeta)
    | case_match ].

Section Orchestration.

Variable cv2_hue : pixel -> Z.
Variable secure_filename : string -> string.
Variable pil_open : list Byte.byte -> outcome DecodedImage.
Variable py_repr : pyval -> string.
Variable b64encode : list Byte.byte -> string.
Variable session_post :
  list event -> string -> gmap string string -> pyval -> Z * Z
  -> outcome DashScope.Response.
Variable annotate_image : Image -> string -> bool -> outcome Image.
Variable save_annotated_image : Image -> string -> string -> outcome string.
Variable path_stem : string -> string.
Variable config : AppConfig.
Variable dashscope_client : DashScope.DashScopeClient.
Variable request_id : string.

Let prepare (index : nat) (file_storage : FileStorage) : M PreparedImage :=
  prepare_image cv2_hue secure_filename pil_open index file_storage
    (ALLOWED_MIME_TYPES config) (MAX_CONTENT_LENGTH config).

Let analyze :=
  DashScope.analyze_image py_repr b64encode session_post dashscope_client.

Let process :=
  process_images cv2_hue secure_filename pil_open py_repr b64encode
    session_post annotate_image save_annotated_image path_stem config
    dashscope_client request_id.

Let route :=
  ai_enhanced_fire_detect cv2_hue secure_filename pil_open py_repr b64encode
    session_post annotate_image save_annotated_image path_stem config
    dashscope_client request_id.

(** What preparing the upload at position [index] gives; the events that
    happened before play no part in it. *)
Definition prepared (index : nat) (file_storage : FileStorage)
  : outcome PreparedImage :=
  snd (prepare index file_storage []).

Lemma prepare_history_free (index : nat) (f : FileStorage) :
  history_free (prepare index f).
Proof. unfold prepare, prepare_image. history_free_steps. Qed.

(** Preparing an upload reads and decodes; it does not call the client. *)
Lemma prepare_appends (index : nat) (f : FileStorage) :
  appends no_client_call (prepare index f).
Proof. unfold prepare, prepare_image. appends_steps. Qed.

Lemma prepare_returns (index : nat) (f : FileStorage) :
  returns (fun p => filename p = secure_filename (declared_name f))
    (prepare index f).
Proof.
  unfold prepare, prepare_image. fold (declared_name f). returns_steps.
  apply returns_ret. reflexivity.
Qed.

Lemma prepared_filename (index : nat) (f : FileStorage) (p : PreparedImage) :
  prepared index f = Return p -> filename p = secure_filename (declared_name f).
Proof.
  unfold prepared. intros H.
  apply (prepare_returns index f [] (fst (prepare index f [])) p).
  rewrite <- H. apply surjective_pairing.
Qed.

Lemma post_appends (endpoint : string) (headers : gmap string string)
    (body : pyval) (timeout : Z * Z) :
  appends no_client_call (DashScope.post session_post endpoint headers body timeout).
Proof.
  intros tr. exists [NetPost endpoint body]. split; [reflexivity|].
  repeat constructor. unfold no_client_call. simpl. tauto.
Qed.

(** The client posts; it does not record calls of its own. *)
Lemma analyze_appends (image_bytes : list Byte.byte)
    (image_format : string) (context : option DashScope.Context) :
  appends no_client_call
    (analyze image_bytes image_format request_id context).
Proof.
  unfold analyze, DashScope.analyze_image.
  repeat first
    [ apply post_appends
    | apply appends_ret | apply appends_raise | apply appends_lift
    | apply appends_bind; [|intros ?]
    | apply appends_try_except; [|intros ?]
    | progress (lazy beta zeta)
    | case_match ].
Qed.

(** The events of the step for position [index] name no other position. *)
Definition calls_position (index : nat) (e : event) : Prop :=
  forall j, e = ClientCall j -> j = index.

Lemma client_step_appends (index : nat) (p : PreparedImage)
    (context : option DashScope.Context)
    (h : exn -> M DashScope.DashScopeResult) (handled : exn -> bool) :
  (forall e, appends (calls_position index) (h e)) ->
  appends (calls_position index)
    (try_except
       (bind (emit (ClientCall index))
          (fun _ => analyze (raw_bytes p) (image_format p) request_id context))
       handled h).
Proof.
  intros Hh. apply appends_try_except; [|exact Hh].
  apply appends_bind.
  - apply appends_emit. now intros j [= ->].
  - intros _. eapply appends_weaken; [|apply analyze_appends].
    intros e He j ->. now destruct He.
Qed.

(** Every client call among [evs] is for an upload of [files] -- the one at
    the position the call names, counted from [index] -- and that upload was
    prepared and found not to be thermal. *)
Definition calls_are_for_visible (index : nat) (files : list FileStorage)
    (evs : list event) : Prop :=
  forall j, In (ClientCall j) evs ->
    exists k file p,
      files !! k = Some file /\ j = index + k
      /\ prepared j file = Return p /\ is_thermal p = false.

Lemma calls_quiet (index : nat) (files : list FileStorage) (evs : list event) :
  Forall no_client_call evs -> calls_are_for_visible index files evs.
Proof.
  intros H j Hin. rewrite Forall_forall in H.
  apply list_elem_of_In in Hin. now destruct (H _ Hin).
Qed.

Lemma calls_app (index : nat) (files : list FileStorage)
    (evs1 evs2 : list event) :
  calls_are_for_visible index files evs1 ->
  calls_are_for_visible index files evs2 ->
  calls_are_for_visible index files (evs1 ++ evs2).
Proof.
  intros H1 H2 j Hin. apply in_app_iff in Hin as [Hin|Hin]; eauto.
Qed.

Lemma calls_head (index : nat) (f : FileStorage) (files : list FileStorage)
    (p : PreparedImage) (evs : list event) :
  prepared index f = Return p -> is_thermal p = false ->
  Forall (calls_position index) evs ->
  calls_are_for_visible index (f :: files) evs.
Proof.
  intros Hp Hth H j Hin. rewrite Forall_forall in H.
  apply list_elem_of_In in Hin. rewrite (H _ Hin j eq_refl).
  exists 0, f, p. repeat split; [lia|assumption..].
Qed.

Lemma calls_tail (index : nat) (f : FileStorage) (files : list FileStorage)
    (evs : list event) :
  calls_are_for_visible (S index) files evs ->
  calls_are_for_visible index (f :: files) evs.
Proof.
  intros H j Hin. destruct (H j Hin) as (k & file & p & Hk & -> & Hp & Hth).
  exists (S k), file, p. repeat split; [assumption|lia|assumption..].
Qed.

(** The entries appended for [files], position by position. *)
Inductive entries :
  nat -> list FileStorage -> list ImageResult -> list AnnotatedImage -> Prop :=
| entries_nil (index : nat) : entries index [] [] []
| entries_cons (index : nat) (f : FileStorage) (files : list FileStorage)
    (p : PreparedImage) (r : ImageResult) (a : AnnotatedImage)
    (rs : list ImageResult) (ans : list AnnotatedImage) :
    prepared index f = Return p ->
    res_filename r = filename p ->
    ann_filename a = filename p ->
    (is_thermal p = true -> r = thermal_result p) ->
    entries (S index) files rs ans ->
    entries index (f :: files) (r :: rs) (a :: ans).

Ltac quiet :=
  repeat first
    [ assumption
    | apply Forall_app; split
    | apply List.Forall_nil
    | apply List.Forall_cons; [unfold no_client_call; simpl; tauto|] ].

Ltac no_result := intros ? ? [=].

Ltac calls :=
  repeat first
    [ solve [apply calls_quiet; quiet]
    | solve [eapply calls_head; eauto]
    | solve [apply calls_tail; assumption]
    | apply calls_app ].

Ltac stopped :=
  eexists; rewrite <- ?app_assoc; split; [reflexivity|];
  split; [calls|no_result].

Lemma process_images_spec (files : list FileStorage) :
  forall index results annotated tr tr' o,
    process index files results annotated tr = (tr', o) ->
    exists evs,
      tr' = (tr ++ evs)%list
      /\ calls_are_for_visible index files evs
      /\ forall rs ans, o = Return (rs, ans) ->
           exists rs' ans',
             rs = (results ++ rs')%list /\ ans = (annotated ++ ans')%list
             /\ entries index files rs' ans'.
Proof.
  induction files as [|f files IH]; intros index results annotated tr tr' o H.
  - injection H as <- <-. exists []. rewrite app_nil_r.
    split; [reflexivity|]. split; [now intros j []|].
    intros rs ans [= <- <-]. exists [], []. rewrite !app_nil_r.
    repeat split. constructor.
  - unfold process in H. cbn [process_images] in H.
    apply bind_inv in H as [(tr1 & [] & Hseek & H) | (e & Hseek & _)];
      [|discriminate Hseek].
    injection Hseek as <-.
    apply bind_inv in H as [(tr2 & p & Hprep & H) | (e & Hprep & ->)];
      destruct (appends_run _ _ _ _ _ (prepare_appends index f) Hprep)
        as (evs1 & -> & Hq1);
      [|stopped].
    assert (Hp : prepared index f = Return p).
    { unfold prepared.
      rewrite <- (prepare_history_free index f (tr ++ [StreamSeek index])%list).
      fold (prepare index f) in Hprep. now rewrite Hprep. }
    destruct (is_thermal p) eqn:Hth.
    + apply bind_inv in H as [(tr3 & img & Hann & H) | (e & Hann & ->)];
        apply labelled_inv in Hann as [-> Hann']; [|stopped].
      apply bind_inv in H as [(tr4 & enc & Hsave & H) | (e & Hsave & ->)];
        apply labelled_inv in Hsave as [-> Hsave']; [|stopped].
      apply IH in H as (evs & -> & Hcalls & Hres).
      eexists. rewrite <- !app_assoc. split; [reflexivity|]. split; [calls|].
      intros rs ans Ho. destruct (Hres rs ans Ho) as (rs' & ans' & -> & -> & He).
      eexists (_ :: rs'), (_ :: ans'). rewrite <- !app_assoc.
      repeat split. econstructor; eauto.
    + apply bind_inv in H as [(tr3 & analysis & Hcall & H) | (e & Hcall & ->)];
        (eapply appends_run in Hcall as (evsc & -> & Hqc);
         [|apply client_step_appends; intros ?; apply appends_raise]);
        [|stopped].
      apply bind_inv in H as [(tr4 & img & Hann & H) | (e & Hann & ->)];
        apply labelled_inv in Hann as [-> Hann']; [|stopped].
      apply bind_inv in H as [(tr5 & enc & Hsave & H) | (e & Hsave & ->)];
        apply labelled_inv in Hsave as [-> Hsave']; [|stopped].
      apply IH in H as (evs & -> & Hcalls & Hres).
      eexists. rewrite <- !app_assoc. split; [reflexivity|]. split; [calls|].
      intros rs ans Ho. destruct (Hres rs ans Ho) as (rs' & ans' & -> & -> & He).
      eexists (_ :: rs'), (_ :: ans'). rewrite <- !app_assoc.
      repeat split. econstructor; eauto. congruence.
Qed.

Lemma entries_length (index : nat) (files : list FileStorage)
    (rs : list ImageResult) (ans : list AnnotatedImage) :
  entries index files rs ans ->
  List.length rs = List.length files /\ List.length ans = List.length files.
Proof. induction 1 as [|? ? ? ? ? ? ? ? _ _ _ _ _ [IH1 IH2]]; simpl; auto. Qed.

Lemma entries_filenames (index : nat) (files : list FileStorage)
    (rs : list ImageResult) (ans : list AnnotatedImage) :
  entries index files rs ans ->
  List.map res_filename rs
  = List.map (fun f => secure_filename (declared_name f)) files
  /\ List.map ann_filename ans
     = List.map (fun f => secure_filename (declared_name f)) files.
Proof.
  induction 1 as [|index f files p r a rs ans Hp Hr Ha _ _ [IH1 IH2]];
    simpl; [auto|].
  rewrite IH1, IH2, Hr, Ha, (prepared_filename _ _ _ Hp). auto.
Qed.

Lemma entries_lookup (index : nat) (files : list FileStorage)
    (rs : list ImageResult) (ans : list AnnotatedImage) :
  entries index files rs ans ->
  forall k f, files !! k = Some f ->
    exists p r a,
      prepared (index + k) f = Return p
      /\ rs !! k = Some r /\ ans !! k = Some a
      /\ res_filename r = filename p /\ ann_filename a = filename p
      /\ (is_thermal p = true -> r = thermal_result p).
Proof.
  induction 1 as [|index f0 files p r a rs ans Hp Hr Ha Hth _ IH];
    intros k f Hk; [discriminate Hk|].
  destruct k as [|k]; simpl in Hk.
  - injection Hk as <-. exists p, r, a. rewrite Nat.add_0_r.
    repeat split; assumption || reflexivity.
  - destruct (IH k f Hk) as (p' & r' & a' & H').
    exists p', r', a'. now rewrite Nat.add_succ_r.
Qed.

(** What a run of the route amounts to. *)
Lemma route_spec (request : HttpRequest) (tr tr' : list event)
    (o : outcome RouteResponse) :
  route request tr = (tr', o) ->
  exists evs,
    tr' = (tr ++ evs)%list
    /\ calls_are_for_visible 1 (uploaded_files request) evs
    /\ forall resp, o = Return resp ->
         entries 1 (uploaded_files request)
           (resp_results resp) (resp_annotated_images resp).
Proof.
  unfold route, ai_enhanced_fire_detect. intros H.
  assert (Hstop : forall e, (tr', o) = (tr, @Raise RouteResponse e) ->
            exists evs, tr' = (tr ++ evs)%list
              /\ calls_are_for_visible 1 (uploaded_files request) evs
              /\ forall resp, o = Return resp ->
                   entries 1 (uploaded_files request)
                     (resp_results resp) (resp_annotated_images resp)).
  { intros e [= -> ->]. exists []. rewrite app_nil_r.
    split; [reflexivity|]. split; [now intros j []|]. intros resp [=]. }
  destruct (uploaded_files request) as [|f files] eqn:Hfiles;
    [now apply (Hstop _ (eq_sym H))|].
  lazy zeta in H.
  destruct (_ <? _)%Z; [now apply (Hstop _ (eq_sym H))|].
  destruct (_ <? _)%Z; [now apply (Hstop _ (eq_sym H))|].
  apply bind_inv in H as [(tr1 & [rs ans] & Hrun & H) | (e & Hrun & ->)];
    apply process_images_spec in Hrun as (evs & -> & Hcalls & Hres).
  - injection H as <- <-. exists evs. repeat split; [assumption|].
    intros resp [= <-]. simpl.
    destruct (Hres rs ans eq_refl) as (rs' & ans' & -> & -> & He). exact He.
  - exists evs. repeat split; [assumption|]. intros resp [=].
Qed.

(** C6: in any run of the route, successful or not, the client is not
    called for an upload that was prepared and found thermal; and if the run
    succeeds, the entry at the upload's position is the fixed one of the
    thermal filter (no fire, no confidence, source "thermal-filter", the
    fixed summary), and the upload has its annotated entry at the same
    position. *)
Theorem thermal_images_skip_the_client
    (request : HttpRequest) (tr tr' : list event) (o : outcome RouteResponse)
    (i : nat) (file_storage : FileStorage) (p : PreparedImage) :
  route request tr = (tr', o) ->
  uploaded_files request !! i = Some file_storage ->
  prepared (S i) file_storage = Return p ->
  is_thermal p = true ->
  exists evs,
    tr' = (tr ++ evs)%list
    /\ ~ In (ClientCall (S i)) evs
    /\ forall resp, o = Return resp ->
         exists r a,
           resp_results resp !! i = Some r
           /\ res_fire_detected r = false
           /\ res_confidence r = None
           /\ res_source r = "thermal-filter"
           /\ res_analysis_summary r = thermal_summary
           /\ res_is_thermal r = true
           /\ res_filename r = filename p
           /\ resp_annotated_images resp !! i = Some a
           /\ ann_filename a = filename p.
Proof.
  intros Hrun Hfile Hp Hth.
  destruct (route_spec _ _ _ _ Hrun) as (evs & -> & Hcalls & Hres).
  exists evs. split; [reflexivity|]. split.
  - intros Hin. destruct (Hcalls _ Hin) as (k & f' & p' & Hk & Hj & Hp' & Hth').
    assert (k = i) as -> by lia.
    rewrite Hfile in Hk. injection Hk as <-.
    rewrite Hp in Hp'. injection Hp' as <-. congruence.
  - intros resp Ho.
    destruct (entries_lookup _ _ _ _ (Hres resp Ho) i file_storage Hfile)
      as (p' & r & a & Hp' & Hr & Ha & Hrn & Han & Hthermal).
    change (1 + i) with (S i) in Hp'.
    rewrite Hp in Hp'. injection Hp' as <-.
    exists r, a. rewrite (Hthermal Hth) in *. simpl. auto 10.
Qed.

(** C7, as amended: a run that succeeds on N uploads returns N results and
    N annotated entries, in the order of the uploads, and the filename of the
    entry at each position is the sanitized form of the name declared at that
    position (of "image.jpg" where none was declared). *)
Theorem outcomes_follow_uploads
    (request : HttpRequest) (tr tr' : list event) (resp : RouteResponse) :
  route request tr = (tr', Return resp) ->
  List.length (resp_results resp) = List.length (uploaded_files request)
  /\ List.length (resp_annotated_images resp)
     = List.length (uploaded_files request)
  /\ List.map res_filename (resp_results resp)
     = List.map (fun f => secure_filename (declared_name f))
         (uploaded_files request)
  /\ List.map ann_filename (resp_annotated_images resp)
     = List.map (fun f => secure_filename (declared_name f))
         (uploaded_files request).
Proof.
  intros Hrun.
  destruct (route_spec _ _ _ _ Hrun) as (evs & _ & _ & Hres).
  specialize (Hres resp eq_refl).
  destruct (entries_length _ _ _ _ Hres), (entries_filenames _ _ _ _ Hres).
  auto.
Qed.

(** C9: when the number of uploads is below the configured minimum or above
    the configured maximum, the route raises ValidationError and the trace is
    what it was: no stream was rewound or read, no image decoded, analysed
    or annotated. *)
Theorem count_out_of_bounds_rejected
    (request : HttpRequest) (tr : list event) :
  (Z.of_nat (List.length (uploaded_files request))
   < default 1 (MIN_IMAGES_PER_REQUEST config)
   \/ default 2 (MAX_IMAGES_PER_REQUEST config)
      < Z.of_nat (List.length (uploaded_files request)))%Z ->
  exists message, route request tr = (tr, Raise (ValidationError message)).
Proof.
  intros Hcount. unfold route, ai_enhanced_fire_detect.
  destruct (uploaded_files request) as [|f files]; [eexists; reflexivity|].
  lazy zeta.
  destruct (Z.ltb_spec (Z.of_nat (List.length (f :: files)))
              (default 1%Z (MIN_IMAGES_PER_REQUEST config)));
    [eexists; reflexivity|].
  destruct (Z.ltb_spec (default 2%Z (MAX_IMAGES_PER_REQUEST config))
              (Z.of_nat (List.length (f :: files))));
    [eexists; reflexivity|].
  lia.
Qed.

End Orchestration.

End RouteFacts.

(** * A concrete deployment

    Collaborators chosen so that whole requests can be run: werkzeug's
    filename sanitizer on ASCII names, a stand-in decoder, and a client in
    forced mock mode behind a transport that refuses to connect. *)

Module RouteExamples.

Import ImageProcessing Routes RouteFacts.

Definition keep (p : ascii -> bool) (s : string) : string :=
  string_of_list_ascii (List.filter p (list_ascii_of_string s)).

Definition replace_char (old new : ascii) (s : string) : string :=
  string_of_list_ascii
    (List.map (fun c => if Ascii.eqb c old then new else c)
       (list_ascii_of_string s)).

(** [s.split()]: the maximal runs of characters that are not blanks. *)
Fixpoint words (s current : string) : list string :=
  match s with
  | EmptyString => if PyStr.truthy current then [current] else []
  | String c t =>
      if PyStr.is_space c
      then (if PyStr.truthy current then current :: words t EmptyString
            else words t EmptyString)
      else words t (current ++ String c EmptyString)
  end.

Fixpoint lstrip_with (p : ascii -> bool) (s : string) : string :=
  match s with
  | EmptyString => EmptyString
  | String c t => if p c then lstrip_with p t else s
  end.

Fixpoint rstrip_with (p : ascii -> bool) (s : string) : string :=
  match s with
  | EmptyString => EmptyString
  | String c t =>
      match rstrip_with p t with
      | EmptyString => if p c then EmptyString else String c EmptyString
      | t' => String c t'
      end
  end.

Definition is_ascii (c : ascii) : bool := PyStr.code c <? 128.

(** The characters [[A-Za-z0-9_.-]]. *)
Definition filename_char (c : ascii) : bool :=
  let n := PyStr.code c in
  ((65 <=? n) && (n <=? 90)) || ((97 <=? n) && (n <=? 122))
  || ((48 <=? n) && (n <=? 57)) || (n =? 95) || (n =? 46) || (n =? 45).

Definition dot_or_underscore (c : ascii) : bool :=
  Ascii.eqb c "." || Ascii.eqb c "_".

(** [werkzeug.utils.secure_filename] on a POSIX host, for names made of
    ASCII characters: separators become blanks, runs of blanks become one
    underscore, every character outside [[A-Za-z0-9_.-]] is dropped, and
    leading and trailing dots and underscores are removed.  (Characters
    above 127, which werkzeug first decomposes, are dropped here.) *)
Definition posix_secure_filename (name : string) : string :=
  let ascii_only := keep is_ascii name in
  let no_separators := replace_char "/" " " ascii_only in
  let joined := PyStr.join "_" (words no_separators EmptyString) in
  rstrip_with dot_or_underscore
    (lstrip_with dot_or_underscore (keep filename_char joined)).

Definition colour_square : Image :=
  [ [ (255, 0, 0)%Z; (0, 255, 0)%Z ]; [ (0, 0, 255)%Z; (40, 40, 0)%Z ] ].

(** A stand-in for Pillow: a buffer that starts with a zero byte decodes to
    a gray picture, any other buffer to a colourful one. *)
Definition sample_decoder (data : list Byte.byte) : outcome DecodedImage :=
  match data with
  | Byte.x00 :: _ =>
      Return {| pil_format := Some "PNG"; pil_rgb := ThermalFacts.gray_square |}
  | _ => Return {| pil_format := Some "JPEG"; pil_rgb := colour_square |}
  end.

Definition sample_hue (p : pixel) : Z := 0%Z.
Definition sample_annotate (img : Image) (summary : string) (fire : bool)
  : outcome Image := Return img.
Definition sample_save (img : Image) (stem format : string) : outcome string :=
  Return (stem ++ "." ++ format).
Definition sample_stem (name : string) : string := name.

Definition sample_config : AppConfig :=
  {| MAX_IMAGES_PER_REQUEST := None;
     MIN_IMAGES_PER_REQUEST := None;
     ALLOWED_MIME_TYPES := {[ "image/jpeg"; "image/png"; "image/jpg"; "image/webp" ]};
     MAX_CONTENT_LENGTH := 10485760;
     DASHSCOPE_MODEL := Some "qwen-vl-max" |}.

Definition upload (name : string) (mime : string) (data : list Byte.byte)
  : FileStorage :=
  {| fs_filename := Some name; fs_mimetype := mime; fs_read := Return data |}.

Definition sample_route : HttpRequest -> M RouteResponse :=
  ai_enhanced_fire_detect sample_hue posix_secure_filename sample_decoder
    ClientFacts.no_repr ClientFacts.no_b64 ClientFacts.offline_session
    sample_annotate sample_save sample_stem sample_config
    (ClientFacts.sample_client None true) "req-1".

Definition sample_prepared : nat -> FileStorage -> outcome PreparedImage :=
  prepared sample_hue posix_secure_filename sample_decoder sample_config.

Definition two_uploads : HttpRequest :=
  {| files_images :=
       [ upload "forest fire.jpg" "image/jpeg" [Byte.x01; Byte.x02];
         upload "night.png" "image/png" [Byte.x00; Byte.x02] ];
     files_image := [] |}.

Definition three_uploads : HttpRequest :=
  {| files_images :=
       [ upload "a.jpg" "image/jpeg" [Byte.x01];
         upload "b.jpg" "image/jpeg" [Byte.x01];
         upload "c.jpg" "image/jpeg" [Byte.x01] ];
     files_image := [] |}.

(** The claim C7 in its own words: the entry at each position carries the
    name the upload at that position declared. *)
Definition filenames_as_declared (request : HttpRequest)
    (resp : RouteResponse) : Prop :=
  forall i f, uploaded_files request !! i = Some f ->
    exists r, resp_results resp !! i = Some r
              /\ fs_filename f = Some (res_filename r).

Example secure_filename_samples :
  posix_secure_filename "My cool movie.mov" = "My_cool_movie.mov"
  /\ posix_secure_filename "../../../etc/passwd" = "etc_passwd"
  /\ posix_secure_filename "image.jpg" = "image.jpg"
  /\ posix_secure_filename "forest fire.jpg" = "forest_fire.jpg".
Proof. repeat split; reflexivity. Qed.

(** The events of a request with a visible and a thermal upload, in order:
    only the first upload reaches the client. *)
Example two_uploads_trace :
  fst (sample_route two_uploads [])
  = [ StreamSeek 1; StreamRead 1; ImageDecode 1; ClientCall 1; Annotate 1;
      SaveAnnotated 1;
      StreamSeek 2; StreamRead 2; ImageDecode 2; Annotate 2; SaveAnnotated 2 ].
Proof. vm_compute. reflexivity. Qed.

Example two_uploads_filenames :
  match snd (sample_route two_uploads []) with
  | Return resp =>
      List.map res_filename (resp_results resp) = ["forest_fire.jpg"; "night.png"]
      /\ List.map res_source (resp_results resp) = ["dashscope"; "thermal-filter"]
  | Raise _ => False
  end.
Proof. vm_compute. split; reflexivity. Qed.

(** C7, as stated, fails: the upload declared as "forest fire.jpg" is
    processed successfully and comes back as "forest_fire.jpg". *)
Lemma outcome_filename_not_declared :
  exists tr' resp,
    sample_route two_uploads [] = (tr', Return resp)
    /\ ~ filenames_as_declared two_uploads resp.
Proof.
  destruct (sample_route two_uploads []) as [tr' o] eqn:Hrun.
  assert (Ho : snd (sample_route two_uploads []) = o) by now rewrite Hrun.
  vm_compute in Ho. subst o.
  eexists _, _. split; [reflexivity|].
  intros H.
  destruct (H 0 (upload "forest fire.jpg" "image/jpeg" [Byte.x01; Byte.x02])
              eq_refl) as (r & Hr & Hname).
  injection Hr as <-. discriminate Hname.
Qed.

Lemma thermal_images_skip_the_client_witness :
  exists evs,
    fst (sample_route two_uploads []) = ([] ++ evs)%list
    /\ ~ In (ClientCall 2) evs
    /\ forall resp, snd (sample_route two_uploads []) = Return resp ->
         exists r a,
           resp_results resp !! 1 = Some r
           /\ res_fire_detected r = false
           /\ res_confidence r = None
           /\ res_source r = "thermal-filter"
           /\ res_analysis_summary r = thermal_summary
           /\ res_is_thermal r = true
           /\ res_filename r = "night.png"
           /\ resp_annotated_images resp !! 1 = Some a
           /\ ann_filename a = "night.png".
Proof.
  pose (file := upload "night.png" "image/png" [Byte.x00; Byte.x02]).
  pose (p := {| filename := "night.png"; content_type := "image/png";
                image_format := "png"; width := 2; height := 2;
                image := ThermalFacts.gray_square;
                raw_bytes := [Byte.x00; Byte.x02];
                is_thermal := true;
                fire_probability := Qmake 7770000 40800000 |}).
  apply (thermal_images_skip_the_client sample_hue posix_secure_filename
           sample_decoder ClientFacts.no_repr ClientFacts.no_b64
           ClientFacts.offline_session sample_annotate sample_save sample_stem
           sample_config (ClientFacts.sample_client None true) "req-1"
           two_uploads [] (fst (sample_route two_uploads []))
           (snd (sample_route two_uploads [])) 1 file p).
  - apply surjective_pairing.
  - reflexivity.
  - vm_compute. reflexivity.
  - reflexivity.
Defined.

Lemma outcomes_follow_uploads_witness :
  exists tr' resp,
    sample_route two_uploads [] = (tr', Return resp)
    /\ List.length (resp_results resp) = 2
    /\ List.length (resp_annotated_images resp) = 2
    /\ List.map res_filename (resp_results resp)
       = ["forest_fire.jpg"; "night.png"]
    /\ List.map ann_filename (resp_annotated_images resp)
       = ["forest_fire.jpg"; "night.png"].
Proof.
  destruct (sample_route two_uploads []) as [tr' o] eqn:Hrun.
  assert (Ho : snd (sample_route two_uploads []) = o) by now rewrite Hrun.
  vm_compute in Ho. subst o.
  eexists _, _. split; [reflexivity|].
  exact (outcomes_follow_uploads sample_hue posix_secure_filename
           sample_decoder ClientFacts.no_repr ClientFacts.no_b64
           ClientFacts.offline_session sample_annotate sample_save sample_stem
           sample_config (ClientFacts.sample_client None true) "req-1"
           two_uploads [] tr' _ Hrun).
Defined.

Lemma count_out_of_bounds_rejected_witness :
  exists message,
    sample_route three_uploads [] = ([], Raise (ValidationError message)).
Proof.
  apply (count_out_of_bounds_rejected sample_hue posix_secure_filename
           sample_decoder ClientFacts.no_repr ClientFacts.no_b64
           ClientFacts.offline_session sample_annotate sample_save sample_stem
           sample_config (ClientFacts.sample_client None true) "req-1"
           three_uploads []).
  right. reflexivity.
Defined.

End RouteExamples.

(** * Confidence extraction against a direct scan of the text *)

Module ConfidenceFacts.

Import DashScope.

(** ** The occurrence the specification describes *)




Fixpoint skip (p : ascii -> bool) (s : string) : string :=
  match s with
  | String c t => if p c then skip p t else s
  | EmptyString => EmptyString
  end.








(** ** Strings *)






Lemma skip_stops (p : ascii -> bool) (s : string) (c : ascii) (t : string) :
  skip p s = String c t -> p c = false.
Proof.
  induction s as [|d s IH]; simpl; [discriminate|].
  destruct (p d) eqn:E; [exact IH|]. now intros [= <- _].
Qed.







(** ** Characters *)

Ltac every_char d := destruct d as [[] [] [] [] [] [] [] []].







(** ** The matcher on the pieces of the pattern *)

Section Matcher.























End Matcher.

(** ** The matched text *)





(** ** The search finds the first occurrence *)





Lemma float_min_cases (a b : Q) :
  ((b < a)%Q /\ PyFloat.min a b = b) \/ ((a <= b)%Q /\ PyFloat.min a b = a).
Proof.
  unfold PyFloat.min. destruct (PyFloat.lt b a) eqn:E.
  - left. split; [now apply ThermalFacts.lt_spec|reflexivity].
  - right. split; [|reflexivity].
    apply Qnot_lt_le. intros H. apply ThermalFacts.lt_spec in H. congruence.
Qed.

Lemma float_max_cases (a b : Q) :
  ((a < b)%Q /\ PyFloat.max a b = b) \/ ((b <= a)%Q /\ PyFloat.max a b = a).
Proof.
  unfold PyFloat.max, PyFloat.gt.
  change (negb (Qle_bool b a)) with (PyFloat.lt a b).
  destruct (PyFloat.lt a b) eqn:E.
  - left. split; [now apply ThermalFacts.lt_spec|reflexivity].
  - right. split; [|reflexivity].
    apply Qnot_lt_le. intros H. apply ThermalFacts.lt_spec in H. congruence.
Qed.



Example confidence_absent :
  _extract_confidence "Heavy smoke over the ridge" = None
  /\ _extract_confidence "" = None.
Proof. split; reflexivity. Qed.

End ConfidenceFacts.

(** * Further properties of the response parsing *)

Module VerdictFacts.

Import DashScope.

(** ** Containment *)

Lemma prefix_split (needle hay : string) :
  String.prefix needle hay = true -> exists rest, hay = needle ++ rest.
Proof.
  revert hay. induction needle as [|c needle IH]; intros hay H.
  - now exists hay.
  - destruct hay as [|d hay]; [discriminate H|]. simpl in H.
    destruct (ascii_dec c d) as [->|]; [|discriminate H].
    destruct (IH _ H) as [rest ->]. now exists rest.
Qed.

(** [needle in hay] holds exactly when [hay] is some text, the needle, and
    some more text. *)
Lemma contains_spec (needle hay : string) :
  PyStr.contains needle hay = true
  <-> exists front rest, hay = front ++ needle ++ rest.
Proof.
  split.
  - induction hay as [|d hay IH]; cbn [PyStr.contains]; intros H.
    + rewrite orb_false_r in H. destruct (prefix_split _ _ H) as [rest ->].
      now exists "", rest.
    + apply orb_true_iff in H as [H|H].
      * destruct (prefix_split _ _ H) as [rest ->]. now exists "", rest.
      * destruct (IH H) as (front & rest & ->). now exists (String d front), rest.
  - intros (front & rest & ->). apply FormatFacts.contains_inside.
Qed.

(** A text that contains a phrase contains the end of the phrase. *)
Lemma contains_tail (first second hay : string) :
  PyStr.contains (first ++ second) hay = true ->
  PyStr.contains second hay = true.
Proof.
  intros H. apply contains_spec in H as (front & rest & ->).
  apply contains_spec. exists (front ++ first), rest.
  now rewrite !FormatFacts.append_assoc.
Qed.

Lemma negative_token_nonempty (phrase : string) :
  In phrase negative_tokens -> phrase <> "".
Proof.
  unfold negative_tokens; simpl.
  intros H; repeat (destruct H as [<- | H]; [discriminate|]). destruct H.
Qed.

(** ** Letter case *)

Lemma lower_char_idempotent (c : ascii) :
  PyStr.lower_char (PyStr.lower_char c) = PyStr.lower_char c.
Proof. ConfidenceFacts.every_char c; reflexivity. Qed.

Lemma lower_idempotent (s : string) : PyStr.lower (PyStr.lower s) = PyStr.lower s.
Proof.
  induction s as [|c s IH]; [reflexivity|]. cbn [PyStr.lower].
  now rewrite lower_char_idempotent, IH.
Qed.

Lemma truthy_lower (s : string) : PyStr.truthy (PyStr.lower s) = PyStr.truthy s.
Proof. now destruct s. Qed.

(** ** The verdict *)

(** X1: a negative phrase anywhere in the summary, in any letter case, gives
    the verdict "no fire", whatever the confidence and the local
    probability say. *)
Theorem negative_phrase_dominates
    (summary phrase : string) (context : option Context) (confidence : option Q) :
  In phrase negative_tokens ->
  PyStr.contains phrase (PyStr.lower summary) = true ->
  _infer_fire_detection summary context confidence = false.
Proof.
  intros Hin Hc.
  assert (Hs : summary <> "").
  { apply InferenceFacts.lower_nonempty.
    eapply InferenceFacts.contains_nonempty; [|exact Hc].
    now apply negative_token_nonempty. }
  unfold _infer_fire_detection.
  destruct summary as [|c rest]; [now destruct Hs|].
  cbn [PyStr.truthy negb].
  assert (existsb (fun t => PyStr.contains t (PyStr.lower (String c rest)))
            negative_tokens = true) as ->; [|reflexivity].
  apply existsb_exists. now exists phrase.
Qed.

Lemma negative_phrase_dominates_witness :
  _infer_fire_detection "Confidence: 99%. Fire is UNLIKELY here."
    (Some {| ctx_filename := None; ctx_local_probability := Some 1%Q |})
    (Some 1%Q)
  = false.
Proof.
  apply (negative_phrase_dominates _ "unlikely").
  - simpl. tauto.
  - reflexivity.
Defined.

(** X2: the word "no" directly in front of an affirmative token ("no blaze",
    "no ignition", ...) gives the verdict "no fire" as well, whatever else
    the summary, the confidence and the local probability say. *)
Theorem negated_token_gives_no_fire
    (summary token : string) (context : option Context) (confidence : option Q) :
  In token affirmative_tokens ->
  PyStr.contains ("no " ++ token) (PyStr.lower summary) = true ->
  _infer_fire_detection summary context confidence = false.
Proof.
  intros Hin Hc.
  assert (Htoken : PyStr.contains token (PyStr.lower summary) = true)
    by exact (contains_tail "no " token _ Hc).
  assert (Hs : summary <> "").
  { apply InferenceFacts.lower_nonempty.
    eapply InferenceFacts.contains_nonempty; [|exact Htoken].
    now apply InferenceFacts.affirmative_token_nonempty. }
  unfold _infer_fire_detection.
  destruct summary as [|c rest]; [now destruct Hs|].
  cbn [PyStr.truthy negb].
  destruct (existsb _ negative_tokens); [reflexivity|].
  assert (existsb (fun t => PyStr.contains t (PyStr.lower (String c rest)))
            affirmative_tokens = true) as ->
    by (apply existsb_exists; now exists token).
  assert (existsb (fun t => PyStr.contains ("no " ++ t) (PyStr.lower (String c rest)))
            affirmative_tokens = true) as ->
    by (apply existsb_exists; now exists token).
  reflexivity.
Qed.

Lemma negated_token_gives_no_fire_witness :
  _infer_fire_detection "Heavy smoke, but no blaze yet" None (Some 1%Q) = false.
Proof.
  apply (negated_token_gives_no_fire _ "blaze").
  - simpl. tauto.
  - reflexivity.
Defined.

(** X3: the verdict does not depend on the letter case of the summary. *)
Theorem verdict_ignores_letter_case
    (summary : string) (context : option Context) (confidence : option Q) :
  _infer_fire_detection (PyStr.lower summary) context confidence
  = _infer_fire_detection summary context confidence.
Proof.
  unfold _infer_fire_detection.
  now rewrite truthy_lower, lower_idempotent.
Qed.

(** ** The confidence *)

(** X4: an extracted confidence always lies between 0 and 1. *)
Theorem extracted_confidence_in_unit_interval (summary : string) (v : Q) :
  _extract_confidence summary = Some v -> (0 <= v /\ v <= 1)%Q.
Proof.
  unfold _extract_confidence.
  destruct (negb (PyStr.truthy summary)); [discriminate|].
  destruct (PyRe.search true confidence_regex summary) as [m|]; [|discriminate].
  set (value := float_of_decimal (PyRe.group m 2)).
  destruct (_ && _); intros [= <-].
  - unfold Qdiv. change (/ 100)%Q with (1 # 100)%Q.
    destruct (ConfidenceFacts.float_min_cases 100 value) as [[H1 ->]|[H1 ->]].
    + destruct (ConfidenceFacts.float_max_cases 0 value) as [[H2 ->]|[H2 ->]];
        split; lra.
    + destruct (ConfidenceFacts.float_max_cases 0 100) as [[H2 ->]|[H2 ->]];
        split; lra.
  - destruct (ConfidenceFacts.float_min_cases 1 value) as [[H1 ->]|[H1 ->]].
    + destruct (ConfidenceFacts.float_max_cases 0 value) as [[H2 ->]|[H2 ->]];
        split; lra.
    + destruct (ConfidenceFacts.float_max_cases 0 1) as [[H2 ->]|[H2 ->]];
        split; lra.
Qed.

Lemma extracted_confidence_in_unit_interval_witness :
  (0 <= 100 # 100 /\ 100 # 100 <= 1)%Q.
Proof.
  apply (extracted_confidence_in_unit_interval "likelihood = 250%").
  reflexivity.
Defined.

End VerdictFacts.

(** * Further properties of the client: the exchange with the model *)

Module ExchangeFacts.

Import DashScope.

Lemma substring_length_le (n : nat) (s : string) :
  String.length (String.substring 0 n s) <= n.
Proof.
  revert s. induction n as [|n IH]; intros s.
  - destruct s; simpl; lia.
  - destruct s as [|c s]; simpl; [lia|]. specialize (IH s). lia.
Qed.

Lemma substring_whole (n : nat) (s : string) :
  String.length s <= n -> String.substring 0 n s = s.
Proof.
  revert s. induction n as [|n IH]; intros s H.
  - destruct s; [reflexivity|simpl in H; lia].
  - destruct s as [|c s]; [reflexivity|]. simpl in *. rewrite IH; [reflexivity|lia].
Qed.

Lemma substring_is_prefix (n : nat) (s : string) :
  exists rest, s = String.substring 0 n s ++ rest.
Proof.
  revert s. induction n as [|n IH]; intros s.
  - exists s. now destruct s.
  - destruct s as [|c s]; [now exists ""|].
    destruct (IH s) as [rest Hrest]. exists rest.
    simpl. rewrite FormatFacts.append_cons. now rewrite <- Hrest.
Qed.


Section Exchange.

Variable py_repr : pyval -> string.
Variable b64encode : list Byte.byte -> string.
Variable session_post :
  list event -> string -> gmap string string -> pyval -> Z * Z -> outcome Response.

Let analyze := analyze_image py_repr b64encode session_post.

(** The JSON body the client sends for an image. *)
Definition sent_body (self : DashScopeClient) (image_bytes : list Byte.byte)
    (image_format : string) (context : option Context) : pyval :=
  PDict {[ "model" := PStr (_model self);
           "messages" :=
             _build_messages self
               ("data:image/"
                ++ (if PyStr.truthy image_format then image_format else "jpeg")
                ++ ";base64," ++ b64encode image_bytes)
               context ]}.

(** The text put in front of a response body in a diagnostic. *)
Definition excerpt (body : string) : string := String.substring 0 600 body.

(** X5: the client uses the transport at most once per image, and only on the
    configured endpoint with the body built for that image; it does not use
    it at all when no credential is set or mock mode is forced. *)
Theorem analyze_posts_at_most_once
    (self : DashScopeClient) (image_bytes : list Byte.byte)
    (image_format request_id : string) (context : option Context)
    (tr : list event) :
  exists evs,
    fst (analyze self image_bytes image_format request_id context tr)
    = (tr ++ evs)%list
    /\ (if no_api_key self || _force_mock self
        then evs = []
        else evs = [NetPost (_endpoint self)
                      (sent_body self image_bytes image_format context)]).
Proof.
  unfold analyze, analyze_image.
  destruct (no_api_key self), (_force_mock self); cbn [andb orb negb];
    try (exists []; split; [now rewrite app_nil_r|reflexivity]).
  eexists. split; [|reflexivity].
  unfold bind, try_except, post, lift, raise, ret.
  destruct (session_post tr _ _ _ _) as [r|e]; cbn [fst].
  - destruct (400 <=? status_code r)%Z; [reflexivity|].
    destruct (json r) as [payload|e]; cbn [fst].
    + now destruct (_extract_summary py_repr payload).
    + now destruct (is_json_decode_error e).
  - now destruct (is_request_exception e).
Qed.

(** X6: when the transport fails to connect, the call raises
    ExternalServiceError with the request id and the transport's message in
    its details, after the one attempt. *)
Theorem transport_failure_is_reported
    (self : DashScopeClient) (image_bytes : list Byte.byte)
    (image_format request_id : string) (context : option Context)
    (tr : list event) (reason : string) :
  no_api_key self = false ->
  _force_mock self = false ->
  (forall endpoint headers body timeout,
     session_post tr endpoint headers body timeout
     = Raise (RequestException reason)) ->
  analyze self image_bytes image_format request_id context tr
  = ((tr ++ [NetPost (_endpoint self)
               (sent_body self image_bytes image_format context)])%list,
     Raise (ExternalServiceError "Failed to connect to DashScope service."
              {[ "request_id" := request_id; "error" := reason ]})).
Proof.
  intros Hkey Hforce Hpost. unfold analyze, analyze_image.
  rewrite Hkey, Hforce. cbn [andb orb negb].
  unfold bind, try_except, post, raise. rewrite Hpost. reflexivity.
Qed.

(** X7: a response with a status of 400 or more raises ExternalServiceError
    that names the status and carries the request id and the start of the
    response text, at most 600 characters of it. *)
Theorem http_error_is_reported
    (self : DashScopeClient) (image_bytes : list Byte.byte)
    (image_format request_id : string) (context : option Context)
    (tr : list event) (response : Response) :
  no_api_key self = false ->
  _force_mock self = false ->
  (forall endpoint headers body timeout,
     session_post tr endpoint headers body timeout = Return response) ->
  (400 <= status_code response)%Z ->
  snd (analyze self image_bytes image_format request_id context tr)
  = Raise (ExternalServiceError
             ("DashScope API returned HTTP "
              ++ PyFormat.str_of_Z (status_code response) ++ ".")
             {[ "body" := excerpt (text response);
                "request_id" := request_id ]})
  /\ String.length (excerpt (text response)) <= 600
  /\ (exists rest, text response = excerpt (text response) ++ rest)
  /\ (String.length (text response) <= 600 ->
      excerpt (text response) = text response).
Proof.
  intros Hkey Hforce Hpost Hstatus. split.
  - unfold analyze, analyze_image.
    rewrite Hkey, Hforce. cbn [andb orb negb].
    unfold bind, try_except, post, raise. rewrite Hpost.
    apply Z.leb_le in Hstatus. now rewrite Hstatus.
  - split; [apply substring_length_le|].
    split; [apply substring_is_prefix|apply substring_whole].
Qed.

(** X8: a response whose body is not JSON raises ExternalServiceError with
    the request id and the same excerpt of the text. *)
Theorem unparseable_body_is_reported
    (self : DashScopeClient) (image_bytes : list Byte.byte)
    (image_format request_id : string) (context : option Context)
    (tr : list event) (response : Response) :
  no_api_key self = false ->
  _force_mock self = false ->
  (forall endpoint headers body timeout,
     session_post tr endpoint headers body timeout = Return response) ->
  (status_code response < 400)%Z ->
  json response = Raise JSONDecodeError ->
  snd (analyze self image_bytes image_format request_id context tr)
  = Raise (ExternalServiceError "DashScope response parsing failed."
             {[ "body" := excerpt (text response);
                "request_id" := request_id ]}).
Proof.
  intros Hkey Hforce Hpost Hstatus Hjson.
  unfold analyze, analyze_image.
  rewrite Hkey, Hforce. cbn [andb orb negb].
  unfold bind, try_except, post, raise, lift. rewrite Hpost.
  apply Z.leb_gt in Hstatus. rewrite Hstatus, Hjson. reflexivity.
Qed.


End Exchange.

End ExchangeFacts.

Module ExchangeExamples.

Import DashScope ExchangeFacts.

Definition keyed_client : DashScopeClient :=
  ClientFacts.sample_client (Some "sk-test") false.

Definition answering (response : Response) (tr : list event)
    (endpoint : string) (headers : gmap string string) (body : pyval)
    (timeout : Z * Z) : outcome Response :=
  Return response.

Definition overloaded : Response :=
  {| status_code := 503;
     text := "Service Unavailable";
     json := Raise JSONDecodeError |}.

Definition garbled : Response :=
  {| status_code := 200;
     text := "<html>gateway</html>";
     json := Raise JSONDecodeError |}.

Definition smoke_report : pyval :=
  SummaryFacts.payload_with
    (PStr " Smoke plume above the ridge. Confidence: 85% ").

Definition answered : Response :=
  {| status_code := 200; text := "{...}"; json := Return smoke_report |}.

Lemma transport_failure_is_reported_witness :
  analyze_image ClientFacts.no_repr ClientFacts.no_b64
    ClientFacts.offline_session keyed_client [] "png" "req-7" None []
  = ([NetPost (_endpoint keyed_client)
        (sent_body ClientFacts.no_b64 keyed_client [] "png" None)],
     Raise (ExternalServiceError "Failed to connect to DashScope service."
              {[ "request_id" := "req-7"; "error" := "connection refused" ]})).
Proof.
  apply (transport_failure_is_reported ClientFacts.no_repr ClientFacts.no_b64
           ClientFacts.offline_session keyed_client [] "png" "req-7" None []
           "connection refused"); reflexivity.
Defined.

Lemma http_error_is_reported_witness :
  snd (analyze_image ClientFacts.no_repr ClientFacts.no_b64
         (answering overloaded) keyed_client [] "png" "req-7" None [])
  = Raise (ExternalServiceError
             ("DashScope API returned HTTP "
              ++ PyFormat.str_of_Z (status_code overloaded) ++ ".")
             {[ "body" := excerpt (text overloaded); "request_id" := "req-7" ]})
  /\ String.length (excerpt (text overloaded)) <= 600
  /\ (exists rest, text overloaded = excerpt (text overloaded) ++ rest)
  /\ (String.length (text overloaded) <= 600 ->
      excerpt (text overloaded) = text overloaded).
Proof.
  apply (http_error_is_reported ClientFacts.no_repr ClientFacts.no_b64
           (answering overloaded) keyed_client [] "png" "req-7" None []
           overloaded); try reflexivity.
  all: simpl; lia.
Defined.

Lemma unparseable_body_is_reported_witness :
  snd (analyze_image ClientFacts.no_repr ClientFacts.no_b64
         (answering garbled) keyed_client [] "png" "req-7" None [])
  = Raise (ExternalServiceError "DashScope response parsing failed."
             {[ "body" := excerpt (text garbled); "request_id" := "req-7" ]}).
Proof.
  apply (unparseable_body_is_reported ClientFacts.no_repr ClientFacts.no_b64
           (answering garbled) keyed_client [] "png" "req-7" None []
           garbled); try reflexivity.
  all: simpl; lia.
Defined.


(** The whole exchange on one answer: the text is trimmed, the percentage
    read as 0.85, and the smoke in the text gives the verdict. *)
Example answered_exchange :
  match snd (analyze_image ClientFacts.no_repr ClientFacts.no_b64
               (answering answered) keyed_client [] "png" "req-7" None []) with
  | Return result =>
      summary result = "Smoke plume above the ridge. Confidence: 85%"
      /\ fire_detected result = true
      /\ option_map Qred (confidence result) = Some (17 # 20)%Q
  | Raise _ => False
  end.
Proof. vm_compute. repeat split; reflexivity. Qed.

End ExchangeExamples.

(** * Further properties of the local heuristics: sampling and ranges *)

Module SamplingFacts.

Import ImageProcessing.

Lemma stride_from_count {A} (step skip : nat) (l : list A) :
  skip < step ->
  List.length (stride_from step skip l) * step + skip
  <= List.length l + step - 1.
Proof.
  revert skip. induction l as [|x l IH]; intros skip Hskip; simpl; [lia|].
  destruct skip as [|skip]; simpl.
  - specialize (IH (step - 1)). lia.
  - specialize (IH skip). lia.
Qed.

Lemma stride_one {A} (l : list A) : stride 1 l = l.
Proof.
  unfold stride. induction l as [|x l IH]; [reflexivity|].
  simpl. now rewrite IH.
Qed.

Lemma subsample_one (rows : Image) : subsample 1 rows = rows.
Proof.
  unfold subsample. rewrite stride_one.
  induction rows as [|row rows IH]; [reflexivity|].
  simpl. now rewrite stride_one, IH.
Qed.

(** Taking every [f]-th element of a list that has at most [f] times
    [limit] plus [limit] elements leaves fewer than twice [limit]. *)
Lemma stride_bound {A} (limit f : nat) (l : list A) :
  0 < limit -> 0 < f -> List.length l / limit <= f ->
  List.length (stride f l) < 2 * limit.
Proof.
  intros Hlimit Hf Hdiv.
  pose proof (stride_from_count f 0 l Hf) as Hcount. fold (stride f l) in Hcount.
  pose proof (Nat.mul_succ_div_gt (List.length l) limit ltac:(lia)) as Hlen.
  set (n := List.length (stride f l)) in *.
  set (len := List.length l) in *.
  set (q := len / limit) in *.
  nia.
Qed.

Lemma shape0_subsample (f : nat) (rows : Image) :
  shape0 (subsample f rows) = List.length (stride f rows).
Proof. unfold shape0, subsample. apply length_map. Qed.

Lemma shape1_subsample (f : nat) (rows : Image) :
  shape1 (subsample f rows)
  = match rows with
    | [] => 0
    | row :: _ => List.length (stride f row)
    end.
Proof. now destruct rows. Qed.

(** The grid left by the sampling has fewer than twice [limit] rows and
    columns. *)
Lemma downsample_shape (limit : nat) (rows : Image) :
  0 < limit ->
  shape0 (downsample limit rows) < 2 * limit
  /\ shape1 (downsample limit rows) < 2 * limit.
Proof.
  intros Hlimit. unfold downsample.
  destruct ((limit <? shape0 rows) || (limit <? shape1 rows)) eqn:Hbig.
  - unfold sampling_factor. rewrite Hbig.
    set (f := Nat.max (Nat.max (shape0 rows / limit) (shape1 rows / limit)) 1).
    rewrite shape0_subsample, shape1_subsample. split.
    + apply stride_bound; [assumption|lia|]. unfold shape0, f.
      etransitivity; [|apply Nat.le_max_l]. apply Nat.le_max_l.
    + destruct rows as [|row rows]; [lia|].
      apply stride_bound; [assumption|lia|].
      unfold f. change (shape1 (row :: rows)) with (List.length row).
      etransitivity; [|apply Nat.le_max_l]. apply Nat.le_max_r.
  - apply orb_false_iff in Hbig as [H0 H1].
    apply Nat.ltb_ge in H0, H1. lia.
Qed.

(** X10: whatever the size of the picture, the grid a heuristic works on has
    fewer than twice its limit in rows and in columns (at most 1023 for the
    thermal filter, 1279 for the fire estimate), and a picture within the
    limit is left as it is. *)
Theorem downsample_bounded (limit : nat) (rows : Image) :
  0 < limit ->
  shape0 (downsample limit rows) < 2 * limit
  /\ shape1 (downsample limit rows) < 2 * limit
  /\ (shape0 rows <= limit -> shape1 rows <= limit ->
      downsample limit rows = rows).
Proof.
  intros Hlimit.
  destruct (downsample_shape limit rows Hlimit) as [H0 H1].
  repeat split; try assumption.
  intros Hrows Hcols. unfold downsample.
  apply Nat.ltb_ge in Hrows, Hcols. now rewrite Hrows, Hcols.
Qed.

Definition tall_strip : Image :=
  [ [ (1, 1, 1)%Z ]; [ (2, 2, 2)%Z ]; [ (3, 3, 3)%Z ];
    [ (4, 4, 4)%Z ]; [ (5, 5, 5)%Z ] ].

Lemma downsample_bounded_witness :
  shape0 (downsample 2 tall_strip) < 2 * 2
  /\ shape1 (downsample 2 tall_strip) < 2 * 2
  /\ (shape0 tall_strip <= 2 -> shape1 tall_strip <= 2 ->
      downsample 2 tall_strip = tall_strip).
Proof. apply (downsample_bounded 2). lia. Defined.

Lemma downsample_idempotent (limit : nat) (rows : Image) :
  0 < limit ->
  downsample limit (downsample limit rows) = downsample limit rows.
Proof.
  intros Hlimit.
  destruct (downsample_shape limit rows Hlimit) as [H0 H1].
  set (grid := downsample limit rows) in *.
  unfold downsample at 1.
  destruct ((limit <? shape0 grid) || (limit <? shape1 grid)); [|reflexivity].
  unfold sampling_factor.
  destruct ((limit <? shape0 grid) || (limit <? shape1 grid));
    [|apply subsample_one].
  assert (shape0 grid / limit <= 1)
    by (apply Nat.lt_succ_r, Nat.Div0.div_lt_upper_bound; lia).
  assert (shape1 grid / limit <= 1)
    by (apply Nat.lt_succ_r, Nat.Div0.div_lt_upper_bound; lia).
  replace (Nat.max (Nat.max (shape0 grid / limit) (shape1 grid / limit)) 1)
    with 1 by lia.
  apply subsample_one.
Qed.

Section Estimate.

Variable cv2_hue : pixel -> Z.

(** X11: both heuristics give the same answer on a picture and on the grid
    they would sample from it: sampling a second time changes nothing. *)
Theorem heuristics_stable_under_sampling (rows : Image) :
  detect_thermal (Rgb (downsample 512 rows)) = detect_thermal (Rgb rows)
  /\ estimate_fire_probability cv2_hue (Rgb (downsample 640 rows))
     = estimate_fire_probability cv2_hue (Rgb rows).
Proof.
  unfold detect_thermal, estimate_fire_probability.
  rewrite !downsample_idempotent by lia. split; reflexivity.
Qed.


End Estimate.


End SamplingFacts.

(** * Further properties of the intake *)

Module IntakeFacts.

Import ImageProcessing MonadFacts.

Lemma str_or_empty (x : string) : str_or x "" = x.
Proof. now destruct x. Qed.

Lemma lower_nonempty_iff (s : string) : PyStr.truthy (PyStr.lower s) = PyStr.truthy s.
Proof. now destruct s. Qed.

(** A guarded step: an event, then a call whose exceptions of the handled
    kind are replaced. *)
Lemma guarded_step_inv {A} (ev : event) (call : outcome A)
    (handled : exn -> bool) (replacement : exn -> exn)
    (tr tr' : list event) (o : outcome A) :
  try_except (bind (emit ev) (fun _ => lift call)) handled
    (fun e => raise (replacement e)) tr = (tr', o) ->
  tr' = (tr ++ [ev])%list
  /\ o = match call with
         | Return a => Return a
         | Raise e => Raise (if handled e then replacement e else e)
         end.
Proof.
  unfold try_except, bind, emit, lift, raise.
  destruct call as [a|e]; [now intros [= <- <-]|].
  destruct (handled e); now intros [= <- <-].
Qed.

Section Intake.

Variable cv2_hue : pixel -> Z.
Variable secure_filename : string -> string.
Variable pil_open : list Byte.byte -> outcome DecodedImage.

Let prepare := prepare_image cv2_hue secure_filename pil_open.

(** The sanitized name of an upload and its media type as the intake
    compares it. *)
Definition intake_name (f : FileStorage) : string :=
  secure_filename (RouteFacts.declared_name f).

Definition intake_type (f : FileStorage) : string :=
  PyStr.lower (fs_mimetype f).

(** The upload passes the checks made before its stream is read. *)
Definition admissible (f : FileStorage) (allowed : gset string) : Prop :=
  intake_name f <> ""
  /\ (intake_type f = "" \/ intake_type f ∈ allowed).

(** X13: an upload whose sanitized name is empty, or whose declared media type
    is not on the allow-list, is refused with ValidationError before its
    stream is read. *)
Theorem inadmissible_upload_is_not_read
    (index : nat) (f : FileStorage) (allowed : gset string)
    (max_content_length : Z) (tr : list event) :
  ~ admissible f allowed ->
  exists message,
    prepare index f allowed max_content_length tr
    = (tr, Raise (ValidationError message)).
Proof.
  intros Hbad. unfold prepare, prepare_image.
  fold (RouteFacts.declared_name f). fold (intake_name f).
  rewrite str_or_empty. fold (intake_type f).
  destruct (intake_name f) as [|c name] eqn:Hname; [eexists; reflexivity|].
  cbn [PyStr.truthy negb].
  destruct (intake_type f) as [|d ty] eqn:Hty.
  { destruct Hbad. unfold admissible. rewrite Hname, Hty.
    split; [discriminate|now left]. }
  cbn [PyStr.truthy andb].
  destruct (bool_decide (String d ty ∈ allowed)) eqn:Hin;
    [|eexists; reflexivity].
  apply bool_decide_eq_true in Hin.
  destruct Hbad. unfold admissible. rewrite Hname, Hty.
  split; [discriminate|now right].
Qed.

(** X14: the decoder only ever sees the bytes of an admissible upload whose
    stream gave a buffer that is not empty and not longer than the limit. *)
Theorem decoding_needs_valid_upload
    (index : nat) (f : FileStorage) (allowed : gset string)
    (max_content_length : Z) (tr tr' : list event)
    (o : outcome PreparedImage) :
  prepare index f allowed max_content_length tr = (tr', o) ->
  exists evs,
    tr' = (tr ++ evs)%list
    /\ (In (ImageDecode index) evs ->
        admissible f allowed
        /\ exists data,
             fs_read f = Return data /\ data <> []
             /\ (Z.of_nat (List.length data) <= max_content_length)%Z).
Proof.
  unfold prepare, prepare_image.
  fold (RouteFacts.declared_name f). fold (intake_name f).
  rewrite str_or_empty. fold (intake_type f).
  assert (Hquiet : forall e : exn, (tr, @Raise PreparedImage e) = (tr', o) ->
            exists evs, tr' = (tr ++ evs)%list
              /\ (In (ImageDecode index) evs ->
                  admissible f allowed
                  /\ exists data,
                       fs_read f = Return data /\ data <> []
                       /\ (Z.of_nat (List.length data) <= max_content_length)%Z)).
  { intros e [= <- <-]. exists []. rewrite app_nil_r. split; [reflexivity|].
    intros []. }
  destruct (PyStr.truthy (intake_name f)) eqn:Hname; cbn [negb];
    [|apply Hquiet].
  destruct (PyStr.truthy (intake_type f)
            && negb (bool_decide (intake_type f ∈ allowed))) eqn:Htype;
    [apply Hquiet|].
  assert (Hadm : admissible f allowed).
  { split.
    - intros Hn. rewrite Hn in Hname. discriminate.
    - apply andb_false_iff in Htype as [Ht|Ht].
      + left. now destruct (intake_type f).
      + right. apply negb_false_iff, bool_decide_eq_true in Ht. exact Ht. }
  intros H.
  apply bind_inv in H as [(tr1 & data & Hread & H) | (e & Hread & ->)];
    apply guarded_step_inv in Hread as [-> Hread].
  2:{ exists [StreamRead index]. split; [reflexivity|].
      intros [H|[]]. discriminate H. }
  destruct (fs_read f) as [bytes|e] eqn:Hfs; [|discriminate Hread].
  injection Hread as ->.
  destruct bytes as [|b rest].
  { injection H as <- <-. exists [StreamRead index]. split; [reflexivity|].
    intros [H|[]]. discriminate H. }
  cbv beta iota in H.
  destruct (max_content_length <? Z.of_nat (List.length (b :: rest)))%Z eqn:Hsize.
  { injection H as <- <-. exists [StreamRead index]. split; [reflexivity|].
    intros [H|[]]. discriminate H. }
  apply Z.ltb_ge in Hsize.
  eapply appends_run in H as (evs & -> & _).
  2:{ instantiate (1 := fun _ => True).
      repeat first
        [ apply appends_ret | apply appends_raise | apply appends_lift
        | apply appends_emit; exact I
        | apply appends_bind; [|intros ?]
        | apply appends_try_except; [|intros ?]
        | progress (lazy beta zeta) ]. }
  exists ([StreamRead index] ++ evs)%list.
  rewrite app_assoc. split; [reflexivity|].
  intros _. split; [exact Hadm|].
  exists (b :: rest). repeat split; [discriminate|assumption].
Qed.

(** X15: two uploads that differ only in the letter case of the declared media
    type are treated alike. *)
Theorem media_type_case_is_ignored
    (index : nat) (f g : FileStorage) (allowed : gset string)
    (max_content_length : Z) :
  fs_filename f = fs_filename g ->
  fs_read f = fs_read g ->
  PyStr.lower (fs_mimetype f) = PyStr.lower (fs_mimetype g) ->
  prepare index f allowed max_content_length
  = prepare index g allowed max_content_length.
Proof.
  intros Hname Hread Htype. unfold prepare, prepare_image.
  now rewrite !str_or_empty, Hname, Hread, Htype.
Qed.

Lemma str_or_nonempty (x y : string) : y <> "" -> str_or x y <> "".
Proof. unfold str_or. destruct x; [tauto|]. intros _. discriminate. Qed.

Lemma lower_not_empty (s : string) : s <> "" -> PyStr.lower s <> "".
Proof. destruct s; [tauto|]. intros _. discriminate. Qed.

Lemma lift_inv {A} (call : outcome A) (tr tr' : list event) (o : outcome A) :
  lift call tr = (tr', o) -> tr' = tr /\ o = call.
Proof. unfold lift. now intros [= <- <-]. Qed.

(** X16: what a successful preparation guarantees: the stream was read once
    and its bytes decoded once, in that order; the upload was admissible; the
    bytes kept are the ones read, not empty and within the limit; the picture
    is the decoded one, with its own width and height; the thermal flag and
    the fire probability are the heuristics' answers on that picture; name,
    format and media type are not empty. *)
Theorem prepared_image_is_consistent
    (index : nat) (f : FileStorage) (allowed : gset string)
    (max_content_length : Z) (tr tr' : list event) (p : PreparedImage) :
  prepare index f allowed max_content_length tr = (tr', Return p) ->
  tr' = (tr ++ [StreamRead index; ImageDecode index])%list
  /\ admissible f allowed
  /\ filename p = intake_name f
  /\ fs_read f = Return (raw_bytes p)
  /\ raw_bytes p <> []
  /\ (Z.of_nat (List.length (raw_bytes p)) <= max_content_length)%Z
  /\ (exists decoded,
        pil_open (raw_bytes p) = Return decoded /\ image p = pil_rgb decoded)
  /\ width p = shape1 (image p)
  /\ height p = shape0 (image p)
  /\ detect_thermal (Rgb (image p)) = Return (is_thermal p)
  /\ estimate_fire_probability cv2_hue (Rgb (image p))
     = Return (fire_probability p)
  /\ image_format p <> ""
  /\ content_type p <> "".
Proof.
  unfold prepare, prepare_image.
  fold (RouteFacts.declared_name f). fold (intake_name f).
  rewrite str_or_empty. fold (intake_type f).
  destruct (PyStr.truthy (intake_name f)) eqn:Hname; cbn [negb];
    [|discriminate].
  destruct (PyStr.truthy (intake_type f)
            && negb (bool_decide (intake_type f ∈ allowed))) eqn:Htype;
    [discriminate|].
  assert (Hadm : admissible f allowed).
  { split.
    - intros Hn. rewrite Hn in Hname. discriminate.
    - apply andb_false_iff in Htype as [Ht|Ht].
      + left. now destruct (intake_type f).
      + right. apply negb_false_iff, bool_decide_eq_true in Ht. exact Ht. }
  intros H.
  apply bind_inv in H as [(tr1 & data & Hread & H) | (e & _ & [=])].
  apply guarded_step_inv in Hread as [-> Hread].
  destruct (fs_read f) as [bytes|e] eqn:Hfs; [|discriminate Hread].
  injection Hread as ->.
  destruct bytes as [|b rest]; [discriminate H|].
  cbv beta iota in H.
  destruct (max_content_length <? Z.of_nat (List.length (b :: rest)))%Z eqn:Hsize;
    [discriminate H|].
  apply Z.ltb_ge in Hsize.
  apply bind_inv in H as [(tr2 & decoded & Hdecode & H) | (e & _ & [=])].
  apply guarded_step_inv in Hdecode as [-> Hdecode].
  destruct (pil_open (b :: rest)) as [dec|e] eqn:Hpil; [|discriminate Hdecode].
  injection Hdecode as ->.
  cbv beta zeta in H.
  apply bind_inv in H as [(tr3 & thermal & Hth & H) | (e & _ & [=])].
  apply lift_inv in Hth as [-> Hth].
  apply bind_inv in H as [(tr4 & probability & Hpr & H) | (e & _ & [=])].
  apply lift_inv in Hpr as [-> Hpr].
  injection H as <- <-. cbn.
  rewrite <- app_assoc.
  repeat (split; [solve [ reflexivity | assumption | discriminate
                        | now symmetry ]|]).
  split; [now exists dec|].
  repeat (split; [solve [ reflexivity | assumption | now symmetry ]|]).
  split.
  - apply lower_not_empty, str_or_nonempty, str_or_nonempty. discriminate.
  - apply str_or_nonempty. discriminate.
Qed.

End Intake.

(** ** On the sample deployment *)

Definition png_upload : FileStorage :=
  RouteExamples.upload "night.png" "image/png" [Byte.x00; Byte.x02].

Definition shouting_upload : FileStorage :=
  RouteExamples.upload "night.png" "IMAGE/PNG" [Byte.x00; Byte.x02].

Definition text_upload : FileStorage :=
  RouteExamples.upload "notes.txt" "text/plain" [Byte.x01].

Definition sample_prepare :=
  prepare_image RouteExamples.sample_hue RouteExamples.posix_secure_filename
    RouteExamples.sample_decoder.

Definition sample_allowed : gset string :=
  Routes.ALLOWED_MIME_TYPES RouteExamples.sample_config.

Lemma inadmissible_upload_is_not_read_witness :
  exists message,
    sample_prepare 1 text_upload sample_allowed 1024 []
    = ([], Raise (ValidationError message)).
Proof.
  apply (inadmissible_upload_is_not_read RouteExamples.sample_hue
           RouteExamples.posix_secure_filename RouteExamples.sample_decoder
           1 text_upload sample_allowed 1024%Z []).
  intros [_ [Hnone|Hin]]; [discriminate Hnone|].
  vm_compute in Hin. discriminate Hin.
Defined.

Lemma decoding_needs_valid_upload_witness :
  exists evs,
    fst (sample_prepare 1 png_upload sample_allowed 1024 []) = ([] ++ evs)%list
    /\ (In (ImageDecode 1) evs ->
        admissible RouteExamples.posix_secure_filename png_upload sample_allowed
        /\ exists data,
             fs_read png_upload = Return data /\ data <> []
             /\ (Z.of_nat (List.length data) <= 1024)%Z).
Proof.
  apply (decoding_needs_valid_upload RouteExamples.sample_hue
           RouteExamples.posix_secure_filename RouteExamples.sample_decoder
           1 png_upload sample_allowed 1024%Z []
           (fst (sample_prepare 1 png_upload sample_allowed 1024 []))
           (snd (sample_prepare 1 png_upload sample_allowed 1024 []))).
  apply surjective_pairing.
Defined.

Lemma media_type_case_is_ignored_witness :
  sample_prepare 1 shouting_upload sample_allowed 1024
  = sample_prepare 1 png_upload sample_allowed 1024.
Proof.
  apply (media_type_case_is_ignored RouteExamples.sample_hue
           RouteExamples.posix_secure_filename RouteExamples.sample_decoder
           1 shouting_upload png_upload sample_allowed 1024%Z); reflexivity.
Defined.

Definition night_prepared : PreparedImage :=
  {| filename := "night.png"; content_type := "image/png";
     image_format := "png"; width := 2; height := 2;
     image := ThermalFacts.gray_square;
     raw_bytes := [Byte.x00; Byte.x02];
     is_thermal := true;
     fire_probability := Qmake 7770000 40800000 |}.

Lemma prepared_image_is_consistent_witness :
  fst (sample_prepare 1 png_upload sample_allowed 1024 [])
  = ([] ++ [StreamRead 1; ImageDecode 1])%list
  /\ admissible RouteExamples.posix_secure_filename png_upload sample_allowed
  /\ filename night_prepared
     = intake_name RouteExamples.posix_secure_filename png_upload
  /\ fs_read png_upload = Return (raw_bytes night_prepared)
  /\ raw_bytes night_prepared <> []
  /\ (Z.of_nat (List.length (raw_bytes night_prepared)) <= 1024)%Z
  /\ (exists decoded,
        RouteExamples.sample_decoder (raw_bytes night_prepared) = Return decoded
        /\ image night_prepared = pil_rgb decoded)
  /\ width night_prepared = shape1 (image night_prepared)
  /\ height night_prepared = shape0 (image night_prepared)
  /\ detect_thermal (Rgb (image night_prepared))
     = Return (is_thermal night_prepared)
  /\ estimate_fire_probability RouteExamples.sample_hue
       (Rgb (image night_prepared))
     = Return (fire_probability night_prepared)
  /\ image_format night_prepared <> ""
  /\ content_type night_prepared <> "".
Proof.
  apply (prepared_image_is_consistent RouteExamples.sample_hue
           RouteExamples.posix_secure_filename RouteExamples.sample_decoder
           1 png_upload sample_allowed 1024%Z []
           (fst (sample_prepare 1 png_upload sample_allowed 1024 []))
           night_prepared).
  vm_compute. reflexivity.
Defined.

End IntakeFacts.

(** * The banner text of [annotate_image] *)

Module Annotator.

(** [safe_summary] as [annotate_image] computes it before drawing: the
    summary stripped, a stock sentence if nothing is left, and the first 217
    characters with three dots if more than 220 are left. *)
Definition safe_summary (summary : string) : string :=
  let stripped := ImageProcessing.str_or (PyStr.strip summary) "Analysis completed." in
  if 220 <? String.length stripped
  then String.substring 0 217 stripped ++ "..."
  else stripped.



Example banner_text_samples :
  safe_summary "   " = "Analysis completed."
  /\ safe_summary "  Smoke on the ridge.  " = "Smoke on the ridge.".
Proof. split; reflexivity. Qed.

End Annotator.

(** ** [forest_fire_api/config.py]: the allow-list of media types *)

Module Config.

Definition DEFAULT_ALLOWED_MIME_TYPES : gset string :=
  {[ "image/jpeg"; "image/png"; "image/jpg"; "image/webp" ]}.

(** [s.split(sep)] for a separator of one character; [current] is the piece
    being read. *)
Fixpoint split (sep : ascii) (s current : string) : list string :=
  match s with
  | EmptyString => [current]
  | String c t =>
      if Ascii.eqb c sep then current :: split sep t EmptyString
      else split sep t (current ++ String c EmptyString)
  end.

(** What an override may put under ["allowed_mime_types"]: one string, or an
    iterable of strings. *)
Inductive mime_override : Type :=
| OverrideText (text : string)
| OverrideItems (items : list string).

(** The set [Settings.from_env] computes from the environment variable
    [ALLOWED_MIME_TYPES]. *)
Definition allowed_mime_types_from_env (allowed_mime_env : option string)
  : gset string :=
  match allowed_mime_env with
  | Some value =>
      if PyStr.truthy value then
        list_to_set
          (List.map (fun item => PyStr.lower (PyStr.strip item))
             (List.filter (fun item => PyStr.truthy (PyStr.strip item))
                (split "," value EmptyString)))
      else DEFAULT_ALLOWED_MIME_TYPES
  | None => DEFAULT_ALLOWED_MIME_TYPES
  end.

(** The field [allowed_mime_types] of the settings [Settings.from_env]
    returns: the set from the environment, replaced by the override if there
    is one, and lower-cased when it is an iterable that is not a string. *)
Definition allowed_mime_types (allowed_mime_env : option string)
    (override : option mime_override) : gset string :=
  let allowed_mime_types := allowed_mime_types_from_env allowed_mime_env in
  match override with
  | Some (OverrideItems items) => list_to_set (List.map PyStr.lower items)
  | Some (OverrideText _) => allowed_mime_types
  | None => list_to_set (List.map PyStr.lower (elements allowed_mime_types))
  end.

End Config.

Module ConfigFacts.

Import Config ImageProcessing.

(** The entries of the allow-list as the operator wrote them: the items of
    the override, or else the non-blank items of the environment variable
    with the blanks around them removed, or else the default types. *)
Definition configured_entries (allowed_mime_env : option string)
    (override : option mime_override) : list string :=
  match override with
  | Some (OverrideItems items) => items
  | _ =>
      match allowed_mime_env with
      | Some (String c rest) =>
          List.filter PyStr.truthy
            (List.map PyStr.strip (split "," (String c rest) EmptyString))
      | _ => elements DEFAULT_ALLOWED_MIME_TYPES
      end
  end.

Lemma default_types_lowercase (m : string) :
  m ∈ DEFAULT_ALLOWED_MIME_TYPES -> PyStr.lower m = m.
Proof.
  unfold DEFAULT_ALLOWED_MIME_TYPES. rewrite !elem_of_union, !elem_of_singleton.
  intros [[[ -> | -> ] | -> ] | -> ]; reflexivity.
Qed.

Lemma lowercase_set_spec (types : gset string) (m : string) :
  (forall t, t ∈ types -> PyStr.lower t = t) ->
  m ∈ types
  <-> exists entry, In entry (elements types) /\ m = PyStr.lower entry.
Proof.
  intros Hlower. split.
  - intros H. exists m. split.
    + now apply list_elem_of_In, elem_of_elements.
    + symmetry. now apply Hlower.
  - intros (entry & Hin & ->).
    apply list_elem_of_In, elem_of_elements in Hin.
    now rewrite (Hlower _ Hin).
Qed.

Lemma from_env_spec (allowed_mime_env : option string) (m : string) :
  m ∈ allowed_mime_types_from_env allowed_mime_env
  <-> exists entry,
        In entry (configured_entries allowed_mime_env None)
        /\ m = PyStr.lower entry.
Proof.
  unfold allowed_mime_types_from_env, configured_entries.
  pose proof (lowercase_set_spec DEFAULT_ALLOWED_MIME_TYPES m
                default_types_lowercase) as Hdefault.
  destruct allowed_mime_env as [[|c rest]|]; try exact Hdefault.
  cbn [PyStr.truthy]. rewrite elem_of_list_to_set, list_elem_of_In, in_map_iff.
  split.
  - intros (item & <- & Hin). apply filter_In in Hin as [Hin Hkeep].
    exists (PyStr.strip item). split; [|reflexivity].
    apply filter_In. split; [|exact Hkeep]. apply in_map_iff. now exists item.
  - intros (entry & Hin & ->). apply filter_In in Hin as [Hin Hkeep].
    apply in_map_iff in Hin as (item & <- & Hin).
    exists item. split; [reflexivity|]. apply filter_In. now split.
Qed.

Lemma allowed_spec (allowed_mime_env : option string)
    (override : option mime_override) (m : string) :
  m ∈ allowed_mime_types allowed_mime_env override
  <-> exists entry,
        In entry (configured_entries allowed_mime_env override)
        /\ m = PyStr.lower entry.
Proof.
  unfold allowed_mime_types. destruct override as [[text|items]|].
  - apply from_env_spec.
  - cbn [configured_entries].
    rewrite elem_of_list_to_set, list_elem_of_In, in_map_iff.
    split; intros (entry & H1 & H2); exists entry; now split.
  - rewrite elem_of_list_to_set, list_elem_of_In, in_map_iff. split.
    + intros (m' & <- & Hin).
      apply list_elem_of_In, elem_of_elements, from_env_spec in Hin
        as (entry & Hin & ->).
      exists entry. split; [exact Hin|]. apply VerdictFacts.lower_idempotent.
    + intros (entry & Hin & ->). exists (PyStr.lower entry). split.
      * apply VerdictFacts.lower_idempotent.
      * apply list_elem_of_In, elem_of_elements, from_env_spec. now exists entry.
Qed.

(** X18: the media-type check of the intake ignores letter case on both sides.
    Every member of the configured allow-list is in lower case, and the
    lower-cased type of an upload is on the list exactly when it equals, up
    to letter case, an entry the operator configured. *)
Theorem type_check_ignores_case
    (allowed_mime_env : option string) (override : option mime_override)
    (file_storage : FileStorage) :
  (forall m, m ∈ allowed_mime_types allowed_mime_env override ->
             PyStr.lower m = m)
  /\ (PyStr.lower (fs_mimetype file_storage)
        ∈ allowed_mime_types allowed_mime_env override
      <-> exists entry,
            In entry (configured_entries allowed_mime_env override)
            /\ PyStr.lower (fs_mimetype file_storage) = PyStr.lower entry).
Proof.
  split.
  - intros m Hm. apply allowed_spec in Hm as (entry & _ & ->).
    apply VerdictFacts.lower_idempotent.
  - apply allowed_spec.
Qed.

Example allow_list_samples :
  allowed_mime_types (Some " Image/PNG , image/JPEG,, ") None
  = {[ "image/png"; "image/jpeg" ]}
  /\ allowed_mime_types (Some " , ") None = ∅
  /\ allowed_mime_types (Some "") None = DEFAULT_ALLOWED_MIME_TYPES
  /\ allowed_mime_types None (Some (OverrideItems ["IMAGE/GIF"]))
     = {[ "image/gif" ]}
  /\ allowed_mime_types (Some "image/png") (Some (OverrideText "image/gif"))
     = {[ "image/png" ]}.
Proof. repeat split; vm_compute; reflexivity. Qed.

End ConfigFacts.

(** * What leaves the route when a request fails *)

Module FailureFacts.

Import ImageProcessing Routes MonadFacts.


Section Laws.

Context {A B : Type}.
Variable Q : exn -> Prop.







End Laws.

Section Failures.

Variable cv2_hue : pixel -> Z.
Variable secure_filename : string -> string.
Variable pil_open : list Byte.byte -> outcome DecodedImage.
Variable py_repr : pyval -> string.
Variable b64encode : list Byte.byte -> string.
Variable session_post :
  list event -> string -> gmap string string -> pyval -> Z * Z
  -> outcome DashScope.Response.
Variable annotate_image : Image -> string -> bool -> outcome Image.
Variable save_annotated_image : Image -> string -> string -> outcome string.
Variable path_stem : string -> string.
Variable config : AppConfig.
Variable dashscope_client : DashScope.DashScopeClient.
Variable request_id : string.










End Failures.
End FailureFacts.

(** * What a successful answer reports *)

Module ReportFacts.

Import ImageProcessing Routes MonadFacts.

(** A [try] whose handler only raises returns what its body returns. *)
Lemma try_except_returns {A} (m : M A) (handled : exn -> bool)
    (replacement : exn -> exn) (tr tr' : list event) (a : A) :
  try_except m handled (fun e => raise (replacement e)) tr = (tr', Return a) ->
  m tr = (tr', Return a).
Proof.
  unfold try_except, raise. destruct (m tr) as [tr1 [a1|e]]; [tauto|].
  now destruct (handled e).
Qed.

Section Reports.

Variable cv2_hue : pixel -> Z.
Variable secure_filename : string -> string.
Variable pil_open : list Byte.byte -> outcome DecodedImage.
Variable py_repr : pyval -> string.
Variable b64encode : list Byte.byte -> string.
Variable session_post :
  list event -> string -> gmap string string -> pyval -> Z * Z
  -> outcome DashScope.Response.
Variable annotate_image : Image -> string -> bool -> outcome Image.
Variable save_annotated_image : Image -> string -> string -> outcome string.
Variable path_stem : string -> string.
Variable config : AppConfig.
Variable dashscope_client : DashScope.DashScopeClient.
Variable request_id : string.

Let prepared := RouteFacts.prepared cv2_hue secure_filename pil_open config.

(** The context the route hands to the client with an image. *)
Definition upload_context (p : PreparedImage) : option DashScope.Context :=
  Some {| DashScope.ctx_filename := Some (filename p);
          DashScope.ctx_local_probability := Some (fire_probability p) |}.

(** The client answered [analysis] for the prepared image [p], after some
    history of events. *)
Definition answered_for (p : PreparedImage)
    (analysis : DashScope.DashScopeResult) : Prop :=
  exists before after,
    DashScope.analyze_image py_repr b64encode session_post dashscope_client
      (raw_bytes p) (image_format p) request_id (upload_context p) before
    = (after, Return analysis).

(** The pair of entries the route appends for the prepared image [p]. *)
Definition reported (p : PreparedImage) (r : ImageResult)
    (a : AnnotatedImage) : Prop :=
  (if is_thermal p then r = thermal_result p
   else exists analysis,
          answered_for p analysis /\ r = model_result config p analysis)
  /\ ann_filename a = filename p
  /\ exists picture,
       annotate_image (image p) (res_analysis_summary r) (res_fire_detected r)
       = Return picture
       /\ save_annotated_image picture (path_stem (filename p)) (image_format p)
          = Return (ann_image_base64 a).

Inductive reports :
  nat -> list FileStorage -> list ImageResult -> list AnnotatedImage -> Prop :=
| reports_nil (index : nat) : reports index [] [] []
| reports_cons (index : nat) (f : FileStorage) (files : list FileStorage)
    (p : PreparedImage) (r : ImageResult) (a : AnnotatedImage)
    (rs : list ImageResult) (ans : list AnnotatedImage) :
    prepared index f = Return p ->
    reported p r a ->
    reports (S index) files rs ans ->
    reports index (f :: files) (r :: rs) (a :: ans).

Lemma process_images_reports (files : list FileStorage) :
  forall index results annotated tr tr' rs ans,
    process_images cv2_hue secure_filename pil_open py_repr b64encode
      session_post annotate_image save_annotated_image path_stem config
      dashscope_client request_id index files results annotated tr
    = (tr', Return (rs, ans)) ->
    exists rs' ans',
      rs = (results ++ rs')%list /\ ans = (annotated ++ ans')%list
      /\ reports index files rs' ans'.
Proof.
  induction files as [|f files IH];
    intros index results annotated tr tr' rs ans H.
  - injection H as _ <- <-. exists [], []. rewrite !app_nil_r.
    repeat split. constructor.
  - cbn [process_images] in H.
    apply bind_inv in H as [(tr1 & [] & Hseek & H) | (e & _ & [=])].
    injection Hseek as <-.
    apply bind_inv in H as [(tr2 & p & Hprep & H) | (e & _ & [=])].
    assert (Hp : prepared index f = Return p).
    { unfold prepared, RouteFacts.prepared.
      rewrite <- (RouteFacts.prepare_history_free cv2_hue secure_filename
                    pil_open config index f (tr ++ [StreamSeek index])%list).
      now rewrite Hprep. }
    destruct (is_thermal p) eqn:Hth.
    + apply bind_inv in H as [(tr3 & picture & Hann & H) | (e & _ & [=])].
      apply labelled_inv in Hann as [-> Hann].
      apply bind_inv in H as [(tr4 & encoded & Hsave & H) | (e & _ & [=])].
      apply labelled_inv in Hsave as [-> Hsave].
      apply IH in H as (rs' & ans' & -> & -> & Hrest).
      eexists (_ :: rs'), (_ :: ans'). rewrite <- !app_assoc.
      repeat split. econstructor; [exact Hp| |exact Hrest].
      unfold reported. rewrite Hth. repeat split. now exists picture.
    + apply bind_inv in H as [(tr3 & analysis & Hcall & H) | (e & _ & [=])].
      apply try_except_returns in Hcall.
      apply bind_inv in Hcall as [(tr0 & [] & Hemit & Hcall) | (e & _ & [=])].
      lazy zeta in H.
      apply bind_inv in H as [(tr4 & picture & Hann & H) | (e & _ & [=])].
      apply labelled_inv in Hann as [-> Hann].
      apply bind_inv in H as [(tr5 & encoded & Hsave & H) | (e & _ & [=])].
      apply labelled_inv in Hsave as [-> Hsave].
      apply IH in H as (rs' & ans' & -> & -> & Hrest).
      eexists (_ :: rs'), (_ :: ans'). rewrite <- !app_assoc.
      repeat split. econstructor; [exact Hp| |exact Hrest].
      unfold reported. rewrite Hth. repeat split.
      * exists analysis. split; [|reflexivity]. now exists tr0, tr3.
      * now exists picture.
Qed.

Lemma reports_lookup (index : nat) (files : list FileStorage)
    (rs : list ImageResult) (ans : list AnnotatedImage) :
  reports index files rs ans ->
  forall k f, files !! k = Some f ->
    exists p r a,
      prepared (index + k) f = Return p
      /\ rs !! k = Some r /\ ans !! k = Some a /\ reported p r a.
Proof.
  induction 1 as [|index f0 files p r a rs ans Hp Hr _ IH];
    intros k f Hk; [discriminate Hk|].
  destruct k as [|k]; simpl in Hk.
  - injection Hk as <-. exists p, r, a. rewrite Nat.add_0_r.
    split; [exact Hp|]. split; [reflexivity|]. split; [reflexivity|exact Hr].
  - destruct (IH k f Hk) as (p' & r' & a' & H').
    exists p', r', a'. now rewrite Nat.add_succ_r.
Qed.

(** X20: in a successful answer every upload is accounted for at its own
    position.  The upload was prepared; a thermal one has the fixed entry of
    the thermal filter; any other has the entry built from an answer the
    client gave for exactly the prepared bytes and format, with the sanitized
    name and the local probability as context; and the annotated image at
    that position is the prepared picture, annotated with the summary and
    the verdict of that same entry. *)
Theorem entries_report_their_upload
    (request : HttpRequest) (tr tr' : list event) (resp : RouteResponse)
    (i : nat) (file_storage : FileStorage) :
  ai_enhanced_fire_detect cv2_hue secure_filename pil_open py_repr b64encode
    session_post annotate_image save_annotated_image path_stem config
    dashscope_client request_id request tr = (tr', Return resp) ->
  uploaded_files request !! i = Some file_storage ->
  exists p r a,
    prepared (S i) file_storage = Return p
    /\ resp_results resp !! i = Some r
    /\ resp_annotated_images resp !! i = Some a
    /\ reported p r a
    /\ res_is_thermal r = is_thermal p
    /\ res_width r = width p /\ res_height r = height p
    /\ res_local_fire_probability r = fire_probability p.
Proof.
  unfold ai_enhanced_fire_detect. lazy zeta. intros H Hfile.
  destruct (uploaded_files request) as [|f files] eqn:Hfiles;
    [discriminate H|].
  destruct (_ <? _)%Z; [discriminate H|].
  destruct (_ <? _)%Z; [discriminate H|].
  apply bind_inv in H as [(tr1 & [rs ans] & Hrun & H) | (e & _ & [=])].
  injection H as _ <-.
  apply process_images_reports in Hrun as (rs' & ans' & -> & -> & Hrep).
  destruct (reports_lookup _ _ _ _ Hrep i file_storage Hfile)
    as (p & r & a & Hp & Hr & Ha & Hrep').
  exists p, r, a. cbn [resp_results resp_annotated_images].
  repeat (split; [assumption|]).
  destruct Hrep' as (Hentry & _). 
  destruct (is_thermal p).
  - subst r. now repeat split.
  - destruct Hentry as (analysis & _ & ->). now repeat split.
Qed.

End Reports.
End ReportFacts.

(** * The order in which uploads are handled *)

Module SequenceFacts.

Import ImageProcessing Routes MonadFacts.

(** The upload an event is about; the transport's events name none. *)
Definition position (ev : event) : option nat :=
  match ev with
  | NetPost _ _ => None
  | StreamSeek i | StreamRead i | ImageDecode i | ClientCall i
  | Annotate i | SaveAnnotated i => Some i
  end.

(** The positions of the uploads whose streams were rewound, in order. *)
Definition rewound (evs : list event) : list nat :=
  omap (fun ev => match ev with StreamSeek i => Some i | _ => None end) evs.

(** An event of the work on the upload at [index], after its stream was
    rewound. *)
Definition during (index : nat) (ev : event) : Prop :=
  match ev with
  | StreamSeek _ => False
  | NetPost _ _ => True
  | StreamRead i | ImageDecode i | ClientCall i | Annotate i
  | SaveAnnotated i => i = index
  end.

(** [rounds index k evs]: the events are those of [k] uploads handled one
    after the other, from position [index] on; each round starts by rewinding
    the stream of its upload. *)
Inductive rounds : nat -> nat -> list event -> Prop :=
| rounds_done (index : nat) : rounds index 0 []
| rounds_next (index k : nat) (evs1 evs2 : list event) :
    Forall (during index) evs1 ->
    rounds (S index) k evs2 ->
    rounds index (S k) (StreamSeek index :: evs1 ++ evs2).

Lemma rewound_during (index : nat) (evs : list event) :
  Forall (during index) evs -> rewound evs = [].
Proof.
  induction 1 as [|ev evs Hev _ IH]; [reflexivity|].
  unfold rewound in *. cbn [omap list_omap]. rewrite IH. now destruct ev.
Qed.

Lemma rounds_rewound (index k : nat) (evs : list event) :
  rounds index k evs -> rewound evs = seq index k.
Proof.
  induction 1 as [|index k evs1 evs2 H1 _ IH]; [reflexivity|].
  unfold rewound in *. cbn [omap list_omap seq]. f_equal.
  rewrite omap_app. fold (rewound evs1).
  now rewrite (rewound_during _ _ H1), IH.
Qed.

Lemma rounds_positions (index k : nat) (evs : list event) :
  rounds index k evs ->
  Forall (fun ev => forall j, position ev = Some j -> index <= j < index + k) evs.
Proof.
  induction 1 as [|index k evs1 evs2 H1 _ IH]; [constructor|].
  apply List.Forall_cons; [intros j [= <-]; lia|].
  apply Forall_app. split.
  - eapply Forall_impl; [exact H1|]. intros ev Hev j Hj.
    destruct ev; simpl in *; try discriminate; try tauto;
      injection Hj as <-; lia.
  - eapply Forall_impl; [exact IH|]. intros ev Hev j Hj.
    specialize (Hev j Hj). lia.
Qed.

Section Sequence.

Variable cv2_hue : pixel -> Z.
Variable secure_filename : string -> string.
Variable pil_open : list Byte.byte -> outcome DecodedImage.
Variable py_repr : pyval -> string.
Variable b64encode : list Byte.byte -> string.
Variable session_post :
  list event -> string -> gmap string string -> pyval -> Z * Z
  -> outcome DashScope.Response.
Variable annotate_image : Image -> string -> bool -> outcome Image.
Variable save_annotated_image : Image -> string -> string -> outcome string.
Variable path_stem : string -> string.
Variable config : AppConfig.
Variable dashscope_client : DashScope.DashScopeClient.
Variable request_id : string.

Let process :=
  process_images cv2_hue secure_filename pil_open py_repr b64encode
    session_post annotate_image save_annotated_image path_stem config
    dashscope_client request_id.

(** [m] finishes the round of the upload at [index] and goes on with at
    most [n] further rounds, all [n] of them if it returns. *)
Definition continues (index n : nat) {X} (m : M X) : Prop :=
  forall tr tr' o, m tr = (tr', o) ->
    exists evs1 k evs2,
      tr' = (tr ++ evs1 ++ evs2)%list
      /\ Forall (during index) evs1
      /\ rounds (S index) k evs2
      /\ k <= n
      /\ (forall v, o = Return v -> k = n).

Lemma continues_bind {A B} (index n : nat) (m : M A) (k : A -> M B) :
  appends (during index) m -> (forall a, continues index n (k a)) ->
  continues index n (bind m k).
Proof.
  intros Hm Hk tr tr' o H.
  apply bind_inv in H as [(tr1 & a & Hrun & H) | (e & Hrun & ->)];
    destruct (appends_run _ _ _ _ _ Hm Hrun) as (evs0 & -> & H0).
  - destruct (Hk a _ _ _ H) as (evs1 & j & evs2 & -> & H1 & H2 & Hj & Hret).
    exists (evs0 ++ evs1)%list, j, evs2. rewrite <- !app_assoc.
    repeat split; try assumption. now apply Forall_app.
  - exists evs0, 0, []. rewrite app_nil_r.
    repeat split; try assumption; [constructor|lia|discriminate].
Qed.

Ltac during_steps :=
  repeat first
    [ apply appends_ret | apply appends_raise | apply appends_lift
    | apply appends_emit; reflexivity
    | apply appends_bind; [|intros ?]
    | apply appends_try_except; [|intros ?]
    | progress (lazy beta zeta)
    | case_match ].

Lemma prepare_during (index : nat) (f : FileStorage)
    (allowed : gset string) (limit : Z) :
  appends (during index)
    (prepare_image cv2_hue secure_filename pil_open index f allowed limit).
Proof. unfold prepare_image. during_steps. Qed.

Lemma post_during (index : nat) (endpoint : string)
    (headers : gmap string string) (body : pyval) (timeout : Z * Z) :
  appends (during index)
    (DashScope.post session_post endpoint headers body timeout).
Proof.
  intros tr. exists [NetPost endpoint body]. split; [reflexivity|].
  now repeat constructor.
Qed.

Lemma analyze_during (index : nat) (image_bytes : list Byte.byte)
    (image_format : string) (context : option DashScope.Context) :
  appends (during index)
    (DashScope.analyze_image py_repr b64encode session_post dashscope_client
       image_bytes image_format request_id context).
Proof.
  unfold DashScope.analyze_image.
  repeat first
    [ apply post_during
    | apply appends_ret | apply appends_raise | apply appends_lift
    | apply appends_bind; [|intros ?]
    | apply appends_try_except; [|intros ?]
    | progress (lazy beta zeta)
    | case_match ].
Qed.

Lemma labelled_during {X} (index : nat) (ev : event) (o : outcome X) :
  during index ev -> appends (during index) (bind (emit ev) (fun _ => lift o)).
Proof.
  intros Hev. apply appends_bind; [now apply appends_emit|].
  intros _. apply appends_lift.
Qed.

Lemma process_images_rounds (files : list FileStorage) :
  forall index results annotated tr tr' o,
    process index files results annotated tr = (tr', o) ->
    exists k evs,
      tr' = (tr ++ evs)%list
      /\ rounds index k evs
      /\ k <= List.length files
      /\ (forall v, o = Return v -> k = List.length files).
Proof.
  induction files as [|f files IH]; intros index results annotated tr tr' o H.
  - injection H as <- <-. exists 0, []. rewrite app_nil_r.
    repeat split; [constructor|lia].
  - unfold process in H. cbn [process_images] in H.
    apply bind_inv in H as [(tr1 & [] & Hseek & H) | (e & Hseek & _)];
      [|discriminate Hseek].
    injection Hseek as <-.
    assert (Hrest : forall results annotated,
              continues index (List.length files)
                (process (S index) files results annotated)).
    { intros rs ans tr0 tr0' o0 H0.
      destruct (IH _ _ _ _ _ _ H0) as (k & evs & -> & Hr & Hk & Hret).
      exists [], k, evs. repeat split; try assumption. constructor. }
    match type of H with
    | ?body _ = _ =>
        assert (Hbody : continues index (List.length files) body)
    end.
    { apply continues_bind; [apply prepare_during|].
      intros p. destruct (is_thermal p).
      - apply continues_bind; [now apply labelled_during|]. intros picture.
        apply continues_bind; [now apply labelled_during|]. intros encoded.
        apply Hrest.
      - apply continues_bind.
        { apply appends_try_except; [|intros ?; apply appends_raise].
          apply appends_bind; [now apply appends_emit|].
          intros _. apply analyze_during. }
        intros analysis. lazy zeta.
        apply continues_bind; [now apply labelled_during|]. intros picture.
        apply continues_bind; [now apply labelled_during|]. intros encoded.
        apply Hrest. }
    destruct (Hbody _ _ _ H) as (evs1 & k & evs2 & -> & H1 & H2 & Hk & Hret).
    exists (S k), (StreamSeek index :: evs1 ++ evs2)%list.
    rewrite <- app_assoc. cbn [List.length].
    repeat split; [apply rounds_next; assumption|lia|].
    intros v Hv. now rewrite (Hret v Hv).
Qed.

(** X21: uploads are handled strictly one after the other, in the order of the
    request, each stream being rewound exactly once at the start of its
    round; a run that fails stops in the round of some upload and touches no
    upload after it; a run that succeeds has gone through every upload. *)
Theorem uploads_are_handled_in_turn
    (request : HttpRequest) (tr tr' : list event) (o : outcome RouteResponse) :
  ai_enhanced_fire_detect cv2_hue secure_filename pil_open py_repr b64encode
    session_post annotate_image save_annotated_image path_stem config
    dashscope_client request_id request tr = (tr', o) ->
  exists k evs,
    tr' = (tr ++ evs)%list
    /\ k <= List.length (uploaded_files request)
    /\ rounds 1 k evs
    /\ rewound evs = seq 1 k
    /\ Forall (fun ev => forall j, position ev = Some j -> 1 <= j <= k) evs
    /\ (forall resp, o = Return resp ->
        k = List.length (uploaded_files request)).
Proof.
  unfold ai_enhanced_fire_detect. lazy zeta. intros H.
  assert (Hstop : forall e, (tr, @Raise RouteResponse e) = (tr', o) ->
            exists k evs,
              tr' = (tr ++ evs)%list
              /\ k <= List.length (uploaded_files request)
              /\ rounds 1 k evs
              /\ rewound evs = seq 1 k
              /\ Forall (fun ev => forall j, position ev = Some j -> 1 <= j <= k) evs
              /\ (forall resp, o = Return resp ->
                  k = List.length (uploaded_files request))).
  { intros e [= <- <-]. exists 0, []. rewrite app_nil_r.
    repeat split; [lia|constructor|constructor|discriminate]. }
  destruct (uploaded_files request) as [|f files] eqn:Hfiles;
    [now apply (Hstop _ H)|].
  destruct (_ <? _)%Z; [now apply (Hstop _ H)|].
  destruct (_ <? _)%Z; [now apply (Hstop _ H)|].
  clear Hstop.
  apply bind_inv in H as [(tr1 & [rs ans] & Hrun & H) | (e & Hrun & ->)];
    apply process_images_rounds in Hrun as (k & evs & -> & Hr & Hk & Hret).
  - injection H as <- <-. exists k, evs.
    repeat split; try assumption.
    + now apply rounds_rewound.
    + eapply Forall_impl; [exact (rounds_positions _ _ _ Hr)|].
      intros ev Hev j Hj. specialize (Hev j Hj). lia.
    + intros resp _. exact (Hret _ eq_refl).
  - exists k, evs. repeat split; try assumption.
    + now apply rounds_rewound.
    + eapply Forall_impl; [exact (rounds_positions _ _ _ Hr)|].
      intros ev Hev j Hj. specialize (Hev j Hj). lia.
    + discriminate.
Qed.

End Sequence.
End SequenceFacts.

(** ** On the sample deployment *)

Module FlowExamples.

Import ImageProcessing Routes.




Definition notes_then_picture : HttpRequest :=
  {| files_images :=
       [ RouteExamples.upload "notes.txt" "text/plain" [Byte.x01];
         RouteExamples.upload "night.png" "image/png" [Byte.x00; Byte.x02] ];
     files_image := [] |}.



Lemma entries_report_their_upload_witness :
  exists tr' resp p r a,
    RouteExamples.sample_route RouteExamples.two_uploads [] = (tr', Return resp)
    /\ RouteExamples.sample_prepared 1
         (RouteExamples.upload "forest fire.jpg" "image/jpeg"
            [Byte.x01; Byte.x02]) = Return p
    /\ resp_results resp !! 0 = Some r
    /\ resp_annotated_images resp !! 0 = Some a
    /\ ReportFacts.reported ClientFacts.no_repr ClientFacts.no_b64
         ClientFacts.offline_session RouteExamples.sample_annotate
         RouteExamples.sample_save RouteExamples.sample_stem
         RouteExamples.sample_config (ClientFacts.sample_client None true)
         "req-1" p r a
    /\ res_is_thermal r = is_thermal p
    /\ res_width r = width p /\ res_height r = height p
    /\ res_local_fire_probability r = fire_probability p.
Proof.
  destruct (RouteExamples.sample_route RouteExamples.two_uploads [])
    as [tr' o] eqn:Hrun.
  assert (Ho : snd (RouteExamples.sample_route RouteExamples.two_uploads [])
               = o) by now rewrite Hrun.
  vm_compute in Ho. subst o.
  destruct (ReportFacts.entries_report_their_upload RouteExamples.sample_hue
              RouteExamples.posix_secure_filename RouteExamples.sample_decoder
              ClientFacts.no_repr ClientFacts.no_b64
              ClientFacts.offline_session RouteExamples.sample_annotate
              RouteExamples.sample_save RouteExamples.sample_stem
              RouteExamples.sample_config (ClientFacts.sample_client None true)
              "req-1" RouteExamples.two_uploads [] tr' _ 0
              (RouteExamples.upload "forest fire.jpg" "image/jpeg"
                 [Byte.x01; Byte.x02]) Hrun eq_refl)
    as (p & r & a & H).
  eexists tr', _, p, r, a. split; [reflexivity|exact H].
Defined.

Lemma uploads_are_handled_in_turn_witness :
  exists k evs,
    fst (RouteExamples.sample_route notes_then_picture []) = ([] ++ evs)%list
    /\ k <= List.length (uploaded_files notes_then_picture)
    /\ SequenceFacts.rounds 1 k evs
    /\ SequenceFacts.rewound evs = seq 1 k
    /\ Forall (fun ev => forall j, SequenceFacts.position ev = Some j ->
                           1 <= j <= k) evs
    /\ (forall resp,
          snd (RouteExamples.sample_route notes_then_picture []) = Return resp ->
          k = List.length (uploaded_files notes_then_picture)).
Proof.
  apply (SequenceFacts.uploads_are_handled_in_turn RouteExamples.sample_hue
           RouteExamples.posix_secure_filename RouteExamples.sample_decoder
           ClientFacts.no_repr ClientFacts.no_b64
           ClientFacts.offline_session RouteExamples.sample_annotate
           RouteExamples.sample_save RouteExamples.sample_stem
           RouteExamples.sample_config (ClientFacts.sample_client None true)
           "req-1" notes_then_picture []).
  apply surjective_pairing.
Defined.

(** The run on the two samples: the first upload is refused for its type
    before its stream is read, and the second one is never touched. *)
Example notes_then_picture_run :
  exists message,
    RouteExamples.sample_route notes_then_picture []
    = ([StreamSeek 1], Raise (ValidationError message)).
Proof. eexists. vm_compute. reflexivity. Qed.

End FlowExamples.
